(** * grblas.expr: deferred indexing, masked assignment and infix dispatch

    A shallow embedding of [grblas/expr.py].  Pure code (index resolution,
    variant dispatch) is embedded as functions into [result]; code that calls
    into the container / engine collaborator is embedded as a program tree
    [prog] whose nodes are the primitive calls, and [run] executes such a tree
    against an arbitrary engine while recording the calls it makes. *)

From Stdlib Require Import ZArith List Bool Lia.
From stdpp Require Import base gmap strings list.
Import ListNotations.
Local Open Scope string_scope.
Local Open Scope list_scope.
Local Open Scope Z_scope.
Set Warnings "-register-all".

(** ** Python values that the module inspects *)

(** [type(x)] of an operand or index, as far as the module distinguishes. *)
Inductive pytype :=
| TVector
| TMatrix
| TTransposedMatrix
| TOtherType (name : string).

Definition pytype_eqb (a b : pytype) : bool :=
  match a, b with
  | TVector, TVector => true
  | TMatrix, TMatrix => true
  | TTransposedMatrix, TTransposedMatrix => true
  | TOtherType x, TOtherType y => String.eqb x y
  | _, _ => false
  end.

Definition type_name (t : pytype) : string :=
  match t with
  | TVector => "Vector"
  | TMatrix => "Matrix"
  | TTransposedMatrix => "TransposedMatrix"
  | TOtherType n => n
  end.

(** The messages of the exceptions, one constructor per [raise] site; the
    values interpolated by the f-strings are the constructor's arguments. *)
Inductive message :=
| IndexCannotBeTuple (obj_type : string)
| IndexMustBe2Tuple (obj_type : string)
| IndexInPositionTuple (i : nat)
| IndexOutOfRange (index size : Z)
| InvalidNumberOfDimensions (ndim : nat)
| InvalidDtype
| UnableToConvertToTuple
| InputMaskOnlyForExtract
| TransposedNoItemAssignment
| MaskNotAllowedSingleElement
| MaskAndInputMaskBoth
| MaskSizeMismatch (attr parent_name mask_name : string) (parent_size mask_size : Z)
| MaskShapeMismatch (attr parent_name mask_name : string) (parent_shape mask_shape : list Z)
| VectorMaskForSubmatrix
| IndexingNotSupportedForScalars
| RemoveElementSingleIndex
| BadTypesEwise (left_type right_type : string)
| BadTypesMatmul (left_type right_type : string)
| ExpectType (got : pytype) (allowed : list pytype) (within argname : string)
| SliceStepZero
| TupleIndexOutOfRange
| NotIterable
| CannotUnpack (got : nat)
| NoAttribute (obj_type attr : string)
| LocalVariableUnbound (var : string)
| Text (s : string).

Inductive exn :=
| TypeError (m : message)
| IndexError (m : message)
| ValueError (m : message)
| AttributeError (m : message)
| UnboundLocalError (m : message)
| OtherError (cls : string) (m : message).

Inductive result (A : Type) :=
| OK (a : A)
| Err (e : exn).
Arguments OK {A} a.
Arguments Err {A} e.

Definition rbind {A B} (r : result A) (f : A -> result B) : result B :=
  match r with
  | OK a => f a
  | Err e => Err e
  end.

Notation "x <-? r ; k" := (rbind r (fun x => k))
  (at level 100, r at next level, right associativity).

(** ** Containers *)

(** Modelled from the spec: the container variants of [scalar.py],
    [vector.py] and [matrix.py] (section 3: Scalar 0-D, Vector 1-D, Matrix
    2-D, transposed-Matrix view 2-D), with the attributes this module reads:
    [name], [_size], [_nrows], [_ncols], [shape], [_is_scalar] and
    [_is_transposed]. *)
Inductive container :=
| Scalar (name : string)
| Vector (name : string) (_size : Z)
| Matrix (name : string) (_nrows _ncols : Z)
| TransposedMatrix (name : string) (_nrows _ncols : Z).

Definition type_of (c : container) : pytype :=
  match c with
  | Scalar _ => TOtherType "Scalar"
  | Vector _ _ => TVector
  | Matrix _ _ _ => TMatrix
  | TransposedMatrix _ _ _ => TTransposedMatrix
  end.

Definition name_of (c : container) : string :=
  match c with
  | Scalar n | Vector n _ | Matrix n _ _ | TransposedMatrix n _ _ => n
  end.

Definition shape (c : container) : list Z :=
  match c with
  | Scalar _ => []
  | Vector _ n => [n]
  | Matrix _ r k | TransposedMatrix _ r k => [r; k]
  end.

Definition _is_scalar (c : container) : bool :=
  match c with Scalar _ => true | _ => false end.

Definition _is_transposed (c : container) : bool :=
  match c with TransposedMatrix _ _ _ => true | _ => false end.

Definition no_attr {A} (c : container) (attr : string) : result A :=
  Err (AttributeError (NoAttribute (type_name (type_of c)) attr)).

Definition get_size (c : container) : result Z :=
  match c with Vector _ n => OK n | _ => no_attr c "_size" end.

Definition get_nrows (c : container) : result Z :=
  match c with
  | Matrix _ r _ | TransposedMatrix _ r _ => OK r
  | _ => no_attr c "_nrows"
  end.

Definition get_ncols (c : container) : result Z :=
  match c with
  | Matrix _ _ k | TransposedMatrix _ _ k => OK k
  | _ => no_attr c "_ncols"
  end.

(** ** Raw index arguments *)

(** [slice(start, stop, step)]; an omitted field is [None]. *)
Record slice := Slice { start : option Z; stop : option Z; step : option Z }.

(** A numpy array: its [shape], whether its dtype is an integer dtype, and
    its elements in row-major order. *)
Record ndarray := NdArray { nd_shape : list nat; nd_integer : bool; nd_data : list Z }.

(** A single (non-tuple) index object. *)
Inductive index_obj :=
| IInt (i : Z)                        (* Python int or numpy integer *)
| ISlice (s : slice)
| IArray (a : ndarray)
| IList (l : list Z)
| IOther (items : option (list Z)).   (* any other object: [tuple(index)], or its failure *)

(** What the user writes between the brackets: one object, or a tuple. *)
Inductive raw_index :=
| RObj (x : index_obj)
| RTuple (l : list raw_index).

Definition is_tuple (x : raw_index) : bool :=
  match x with RTuple _ => true | _ => false end.

(** ** Resolved indices *)

(** What is handed to the engine: [_CScalar(v)], the [_ALL_INDICES] marker
    wrapping [GrB_ALL], or [_CArray(items)].  A constructor stands for a
    wrapper that was built; whether the wrapper accepts the value is the
    subject of [parse_index_wrapped]. *)
Inductive carg :=
| _CScalar (v : Z)
| _ALL_INDICES
| _CArray (items : list Z).

(** One [(index, size)] pair per dimension; [size] is [None] for an int. *)
Definition IndexSpec : Type := carg * option carg.

Definition slice_eqb (a b : slice) : bool :=
  bool_decide (start a = start b) && bool_decide (stop a = stop b)
  && bool_decide (step a = step b).

(** *** [range(size)[index]] for a slice [index] *)

(** The clamping of one bound, as [slice.indices] does it. *)
Definition clamp_bound (v : option Z) (default lower upper length : Z) : Z :=
  match v with
  | None => default
  | Some x =>
      if x <? 0 then Z.max (x + length) lower else Z.min x upper
  end.

(** [len(range(lo, hi, st))] for [st <> 0]. *)
Definition range_len (lo hi st : Z) : nat :=
  if 0 <? st then
    if lo <? hi then Z.to_nat ((hi - lo - 1) / st + 1) else 0%nat
  else
    if hi <? lo then Z.to_nat ((lo - hi - 1) / (- st) + 1) else 0%nat.

Definition range_items (lo hi st : Z) : list Z :=
  map (fun k => lo + Z.of_nat k * st) (seq 0 (range_len lo hi st)).

Definition range_getslice (size : Z) (s : slice) : result (list Z) :=
  let st := match step s with None => 1 | Some x => x end in
  if st =? 0 then Err (ValueError SliceStepZero)
  else
    let neg := st <? 0 in
    let lower := if neg then -1 else 0 in
    let upper := if neg then size - 1 else size in
    let lo := clamp_bound (start s) (if neg then upper else lower) lower upper size in
    let hi := clamp_bound (stop s) (if neg then lower else upper) lower upper size in
    OK (range_items lo hi st).

(** *** [IndexerResolver.parse_index] *)

Definition len_Z {A} (l : list A) : Z := Z.of_nat (length l).

(** Called by [parse_indices] only, after it has rejected tuples: [index] is
    never a tuple here. *)
Definition parse_index (index : index_obj) (size : Z) : result IndexSpec :=
  match index with
  | IInt i =>
      if size <=? i then Err (IndexError (IndexOutOfRange i size))
      else OK (_CScalar i, None)
  | ISlice s =>
      if slice_eqb s (Slice None None None) || slice_eqb s (Slice (Some 0) None None)
      then OK (_ALL_INDICES, Some (_CScalar size))
      else
        items <-? range_getslice size s;
        OK (_CArray items, Some (_CScalar (len_Z items)))
  | IArray a =>
      if negb (length (nd_shape a) =? 1)%nat
      then Err (TypeError (InvalidNumberOfDimensions (length (nd_shape a))))
      else if negb (nd_integer a) then Err (TypeError InvalidDtype)
      else OK (_CArray (nd_data a), Some (_CScalar (Z.of_nat (hd 0%nat (nd_shape a)))))
  | IList l => OK (_CArray l, Some (_CScalar (len_Z l)))
  | IOther None => Err (TypeError UnableToConvertToTuple)
  | IOther (Some items) => OK (_CArray items, Some (_CScalar (len_Z items)))
  end.

(** *** [IndexerResolver.parse_indices] *)

(** Iterating an index object, as [enumerate(indices)] does when [indices]
    was not normalised to a tuple. *)
Definition sub_arrays (a : ndarray) : list raw_index :=
  match nd_shape a with
  | [] => []
  | d :: [] =>
      map (fun v => RObj (if nd_integer a then IInt v else IOther None)) (nd_data a)
  | d :: rest =>
      let chunk := fold_right Nat.mul 1%nat rest in
      map (fun k => RObj (IArray (NdArray rest (nd_integer a)
                                   (firstn chunk (skipn (k * chunk) (nd_data a))))))
          (seq 0 d)
  end.

Definition py_iter (indices : raw_index) : result (list raw_index) :=
  match indices with
  | RTuple l => OK l
  | RObj (IList l) => OK (map (fun v => RObj (IInt v)) l)
  | RObj (IOther (Some items)) => OK (map (fun v => RObj (IInt v)) items)
  | RObj (IArray a) =>
      match nd_shape a with
      | [] => Err (TypeError NotIterable)
      | _ => OK (sub_arrays a)
      end
  | RObj _ => Err (TypeError NotIterable)
  end.

(** The loop [for i, idx in enumerate(indices)]. *)
Fixpoint parse_loop (i : nat) (indices : list raw_index) (shape : list Z)
  : result (list IndexSpec) :=
  match indices with
  | [] => OK []
  | idx :: rest =>
      match idx with
      | RTuple _ => Err (TypeError (IndexInPositionTuple i))
      | RObj x =>
          match nth_error shape i with
          | None => Err (IndexError TupleIndexOutOfRange)
          | Some size =>
              spec <-? parse_index x size;
              out <-? parse_loop (S i) rest shape;
              OK (spec :: out)
          end
      end
  end.

Definition parse_indices (obj_type : string) (indices : raw_index) (shape : list Z)
  : result (list IndexSpec) :=
  match length shape with
  | 1%nat =>
      if is_tuple indices then Err (TypeError (IndexCannotBeTuple obj_type))
      else parse_loop 0 [indices] shape
  | 2%nat =>
      match indices with
      | RTuple [a; b] => parse_loop 0 [a; b] shape
      | _ => Err (TypeError (IndexMustBe2Tuple obj_type))
      end
  | _ =>
      l <-? py_iter indices;
      parse_loop 0 l shape
  end.

(** *** [IndexerResolver] *)

Record IndexerResolver := mkResolver { obj : container; indices : list IndexSpec }.

(** [IndexerResolver.__init__] *)
Definition IndexerResolver_init (obj : container) (indices : raw_index)
  : result IndexerResolver :=
  specs <-? parse_indices (type_name (type_of obj)) indices (shape obj);
  OK (mkResolver obj specs).

Definition is_single_element (r : IndexerResolver) : bool :=
  forallb (fun spec : IndexSpec =>
             match snd spec with None => true | Some _ => false end)
          (indices r).

(** [IndexerResolver.get_index], for [dim] 0 or 1. *)
Definition get_index (r : IndexerResolver) (dim : nat) : result IndexerResolver :=
  match nth_error (indices r) dim with
  | Some spec => OK (mkResolver (obj r) [spec])
  | None => Err (IndexError TupleIndexOutOfRange)
  end.

(** ** The engine interface *)

(** A Python object this module only passes along (a right-hand side, an
    operator, a positional argument). *)
Inductive pyobj := PyObj (label : string).

(** A mask object [M.S], [M.V], ...: its class and the container it wraps
    ([input_mask.mask]). *)
Record Mask := mkMask { mask_class : string; mask : container }.

(** A value of [**kwargs]. *)
Inductive kwval :=
| KNone
| KMask (m : Mask)
| KObj (o : pyobj).

Definition is_not_None (v : kwval) : bool :=
  match v with KNone => false | _ => true end.

(** [kwargs.get(key)] *)
Definition kw_get (kwargs : gmap string kwval) (key : string) : kwval :=
  default KNone (kwargs !! key).

(** [not kwargs] *)
Definition kw_is_empty (kwargs : gmap string kwval) : bool :=
  bool_decide (kwargs = ∅).

Record Updater := mkUpdater { upd_parent : container; upd_kwargs : gmap string kwval }.

(** A delayed expression object built by the engine. *)
Inductive expression := Expression (label : string).

(** An operand of an infix operator: a container, or anything else. *)
Inductive operand :=
| Cont (c : container)
| Foreign (cls : string).

Definition type_of_operand (x : operand) : pytype :=
  match x with
  | Cont c => type_of c
  | Foreign cls => TOtherType cls
  end.

(** The dummy expression returned by [getattr(left, method)(right, op)]:
    [output_type] is Vector for the first variant, Matrix for the second. *)
Inductive probe :=
| VectorExpression (_size : Z)
| MatrixExpression (nrows ncols : Z).

(** The calls this module makes into its collaborators, indexed by the type
    of what the call returns. *)
Inductive prim : Type -> Type :=
| _assign_element (parent : container) (resolved_indexes : IndexerResolver) (value : pyobj)
  : prim unit
| _delete_element (parent : container) (resolved_indexes : IndexerResolver) : prim unit
| _prep_for_assign (parent : container) (resolved_indexes : IndexerResolver)
    (value : pyobj) (mask : kwval) (is_submask : bool) : prim expression
| _update (parent : container) (delayed : expression) (kwargs : gmap string kwval)
  : prim unit
| _extract_element (parent : container) (resolved_indexes : IndexerResolver)
    (dtype name : option string) : prim container
| _prep_for_extract (parent : container) (resolved_indexes : IndexerResolver)
  : prim expression
| expr_new (e : expression) (dtype : option string) (mask : option Mask)
    (name : option string) : prim container
| _check_mask (m : Mask) (output : container) : prim unit
| parent_call (parent : container) (args : list pyobj) (kwargs : gmap string kwval)
  : prim Updater
| method_call (left : operand) (method : string) (right : operand) (op : string)
  : prim probe.

(** ** Programs over the engine interface *)

Inductive prog (A : Type) : Type :=
| Ret (a : A)
| Raise (e : exn)
| Call (R : Type) (p : prim R) (k : R -> prog A).
Arguments Ret {A} a.
Arguments Raise {A} e.
Arguments Call {A R} p k.

Fixpoint pbind {A B} (f : A -> prog B) (p : prog A) : prog B :=
  match p with
  | Ret a => f a
  | Raise e => Raise e
  | Call c k => Call c (fun r => pbind f (k r))
  end.

#[global] Instance prog_ret : MRet prog := @Ret.
#[global] Instance prog_bind : MBind prog := @pbind.

Definition call {R} (p : prim R) : prog R := Call p Ret.

Definition lift {A} (r : result A) : prog A :=
  match r with
  | OK a => Ret a
  | Err e => Raise e
  end.

Inductive event := Ev (R : Type) (p : prim R).
Arguments Ev {R} p.

(** An engine answers each call, possibly depending on the calls made so
    far (which stand for its state). *)
Definition engine := list event -> forall R, prim R -> result R.

Inductive outcome (A : Type) :=
| Returned (a : A)
| Raised (e : exn)      (* raised by a [raise] of this module *)
| Failed (e : exn).     (* raised inside a call to a collaborator *)
Arguments Returned {A} a.
Arguments Raised {A} e.
Arguments Failed {A} e.

Fixpoint run {A} (eng : engine) (hist : list event) (p : prog A)
  : list event * outcome A :=
  match p with
  | Ret a => (hist, Returned a)
  | Raise e => (hist, Raised e)
  | Call c k =>
      match eng hist _ c with
      | OK r => run eng (hist ++ [Ev c]) (k r)
      | Err e => (hist ++ [Ev c], Failed e)
      end
  end.

(** ** [Updater], [Assigner] and [AmbiguousAssignOrExtract] *)

Record Assigner := mkAssigner {
  asg_updater : Updater;
  asg_resolved_indexes : IndexerResolver;
  asg_is_submask : bool
}.

Record AmbiguousAssignOrExtract := mkAmbiguous {
  amb_parent : container;
  amb_resolved_indexes : IndexerResolver
}.

(** [Assigner.__init__] *)
Definition Assigner_init (updater : Updater) (resolved_indexes : IndexerResolver)
    (is_submask : bool) : result Assigner :=
  if is_not_None (kw_get (upd_kwargs updater) "input_mask")
  then Err (TypeError InputMaskOnlyForExtract)
  else OK (mkAssigner updater resolved_indexes is_submask).

(** [Updater.update] and [Updater.__lshift__] *)
Definition Updater_update (self : Updater) (delayed : expression) : prog unit :=
  call (_update (upd_parent self) delayed (upd_kwargs self)).

Definition Updater___lshift__ (self : Updater) (delayed : expression) : prog unit :=
  call (_update (upd_parent self) delayed (upd_kwargs self)).

(** [Updater._setitem], the commit routine *)
Definition Updater__setitem (self : Updater) (resolved_indexes : IndexerResolver)
    (value : pyobj) (is_submask : bool) : prog unit :=
  if is_single_element resolved_indexes && kw_is_empty (upd_kwargs self) then
    call (_assign_element (upd_parent self) resolved_indexes value)
  else
    let mask := kw_get (upd_kwargs self) "mask" in
    delayed ← call (_prep_for_assign (upd_parent self) resolved_indexes value
                                     mask is_submask);
    Updater_update self delayed.

(** [Updater.__getitem__]: calls nothing in the engine. *)
Definition Updater___getitem__ (self : Updater) (keys : raw_index) : result Assigner :=
  if _is_scalar (upd_parent self)
  then Err (TypeError IndexingNotSupportedForScalars)
  else
    resolved_indexes <-? IndexerResolver_init (upd_parent self) keys;
    Assigner_init self resolved_indexes false.

(** [Updater.__setitem__] *)
Definition Updater___setitem__ (self : Updater) (keys : raw_index) (value : pyobj)
  : prog unit :=
  if _is_scalar (upd_parent self)
  then Raise (TypeError IndexingNotSupportedForScalars)
  else
    resolved_indexes ← lift (IndexerResolver_init (upd_parent self) keys);
    Updater__setitem self resolved_indexes value false.

(** [Updater.__delitem__] *)
Definition Updater___delitem__ (self : Updater) (keys : raw_index) : prog unit :=
  if _is_scalar (upd_parent self)
  then Raise (TypeError IndexingNotSupportedForScalars)
  else
    resolved_indexes ← lift (IndexerResolver_init (upd_parent self) keys);
    if is_single_element resolved_indexes
    then call (_delete_element (upd_parent self) resolved_indexes)
    else Raise (TypeError RemoveElementSingleIndex).

(** [Assigner.update] and [Assigner.__lshift__] *)
Definition Assigner_update (self : Assigner) (value : pyobj) : prog unit :=
  Updater__setitem (asg_updater self) (asg_resolved_indexes self) value
                   (asg_is_submask self).

Definition Assigner___lshift__ (self : Assigner) (value : pyobj) : prog unit :=
  Updater__setitem (asg_updater self) (asg_resolved_indexes self) value
                   (asg_is_submask self).

(** [AmbiguousAssignOrExtract.__call__]: calling [self.parent] with the
    positional and keyword arguments is the container's own call, which
    hands back the Updater. *)
Definition Ambiguous___call__ (self : AmbiguousAssignOrExtract)
    (args : list pyobj) (kwargs : gmap string kwval) : prog Assigner :=
  updater ← call (parent_call (amb_parent self) args kwargs);
  let is_submask := is_not_None (kw_get (upd_kwargs updater) "mask") in
  lift (Assigner_init updater (amb_resolved_indexes self) is_submask).

(** [AmbiguousAssignOrExtract.update] *)
Definition Ambiguous_update (self : AmbiguousAssignOrExtract) (value : pyobj)
  : prog unit :=
  if _is_transposed (amb_parent self)
  then Raise (TypeError TransposedNoItemAssignment)
  else Updater__setitem (mkUpdater (amb_parent self) ∅)
                        (amb_resolved_indexes self) value false.

(** [AmbiguousAssignOrExtract.__lshift__] *)
Definition Ambiguous___lshift__ (self : AmbiguousAssignOrExtract) (value : pyobj)
  : prog unit :=
  Ambiguous_update self value.

(** The tail shared by the branches of [_input_mask_to_mask]:
    [mask_expr.new(name="mask_temp")], rewrapped as [type(input_mask)]. *)
Definition finish_mask (input_mask : Mask) (mask_expr : expression) : prog Mask :=
  mask_value ← call (expr_new mask_expr None None (Some "mask_temp"));
  mret (mkMask (mask_class input_mask) mask_value).

(** [AmbiguousAssignOrExtract._input_mask_to_mask] *)
Definition _input_mask_to_mask (self : AmbiguousAssignOrExtract) (input_mask : Mask)
  : prog Mask :=
  let parent := amb_parent self in
  let m := mask input_mask in
  if pytype_eqb (type_of m) TVector && negb (pytype_eqb (type_of parent) TVector) then
    match indices (amb_resolved_indexes self) with
    | [(_, rowsize); (_, colsize)] =>
        match rowsize, colsize with
        | None, _ =>
            ncols ← lift (get_ncols parent);
            size ← lift (get_size m);
            if negb (ncols =? size)
            then Raise (ValueError (MaskSizeMismatch "ncols" (name_of parent) (name_of m)
                                                     ncols size))
            else
              proj ← lift (get_index (amb_resolved_indexes self) 1);
              mask_expr ← call (_prep_for_extract m proj);
              finish_mask input_mask mask_expr
        | Some _, None =>
            nrows ← lift (get_nrows parent);
            size ← lift (get_size m);
            if negb (nrows =? size)
            then Raise (ValueError (MaskSizeMismatch "nrows" (name_of parent) (name_of m)
                                                     nrows size))
            else
              proj ← lift (get_index (amb_resolved_indexes self) 0);
              mask_expr ← call (_prep_for_extract m proj);
              finish_mask input_mask mask_expr
        | Some _, Some _ => Raise (TypeError VectorMaskForSubmatrix)
        end
    | l => Raise (ValueError (CannotUnpack (length l)))
    end
  else if negb (bool_decide (shape m = shape parent)) then
    if pytype_eqb (type_of parent) TVector then
      shape1 ← lift (get_size parent);
      shape2 ← lift (get_size m);
      Raise (ValueError (MaskSizeMismatch "size" (name_of parent) (name_of m)
                                          shape1 shape2))
    else
      Raise (ValueError (MaskShapeMismatch "shape" (name_of parent) (name_of m)
                                           (shape parent) (shape m)))
  else
    mask_expr ← call (_prep_for_extract m (amb_resolved_indexes self));
    finish_mask input_mask mask_expr.

(** [x is not None] for an optional argument. *)
Definition given {A} (x : option A) : bool :=
  match x with Some _ => true | None => false end.

(** [AmbiguousAssignOrExtract.new] *)
Definition Ambiguous_new (self : AmbiguousAssignOrExtract) (dtype : option string)
    (mask : option Mask) (input_mask : option Mask) (name : option string)
  : prog container :=
  if is_single_element (amb_resolved_indexes self) then
    if given mask || given input_mask
    then Raise (TypeError MaskNotAllowedSingleElement)
    else call (_extract_element (amb_parent self) (amb_resolved_indexes self) dtype name)
  else
    mask' ← match input_mask with
            | Some im =>
                if given mask
                then Raise (TypeError MaskAndInputMaskBoth)
                else
                  _ ← call (_check_mask im (amb_parent self));
                  derived ← _input_mask_to_mask self im;
                  mret (Some derived)
            | None => mret mask
            end;
    delayed_extractor ← call (_prep_for_extract (amb_parent self)
                                                (amb_resolved_indexes self));
    call (expr_new delayed_extractor dtype mask' name).

(** ** Infix expressions *)

Inductive infix_expr :=
| VectorEwiseAddExpr (left right : operand) (_size : Z)
| VectorEwiseMultExpr (left right : operand) (_size : Z)
| VectorMatMulExpr (left right : operand) (method_name : string) (_size : Z)
| MatrixEwiseAddExpr (left right : operand) (_nrows _ncols : Z)
| MatrixEwiseMultExpr (left right : operand) (_nrows _ncols : Z)
| MatrixMatMulExpr (left right : operand) (_nrows _ncols : Z).

(** The [method_name] attribute (a class attribute, except for
    [VectorMatMulExpr], which stores it). *)
Definition method_name (e : infix_expr) : string :=
  match e with
  | VectorEwiseAddExpr _ _ _ | MatrixEwiseAddExpr _ _ _ _ => "ewise_add"
  | VectorEwiseMultExpr _ _ _ | MatrixEwiseMultExpr _ _ _ _ => "ewise_mult"
  | VectorMatMulExpr _ _ m _ => m
  | MatrixMatMulExpr _ _ _ _ => "mxm"
  end.

(** The [size] property of the vector-valued nodes. *)
Definition expr_size (e : infix_expr) : option Z :=
  match e with
  | VectorEwiseAddExpr _ _ n | VectorEwiseMultExpr _ _ n | VectorMatMulExpr _ _ _ n =>
      Some n
  | _ => None
  end.

Definition is_vector_expr (e : infix_expr) : bool :=
  match e with
  | VectorEwiseAddExpr _ _ _ | VectorEwiseMultExpr _ _ _ | VectorMatMulExpr _ _ _ _ => true
  | _ => false
  end.

Definition expr_left (e : infix_expr) : operand :=
  match e with
  | VectorEwiseAddExpr l _ _ | VectorEwiseMultExpr l _ _ | VectorMatMulExpr l _ _ _
  | MatrixEwiseAddExpr l _ _ _ | MatrixEwiseMultExpr l _ _ _ | MatrixMatMulExpr l _ _ _ => l
  end.

Definition expr_right (e : infix_expr) : operand :=
  match e with
  | VectorEwiseAddExpr _ r _ | VectorEwiseMultExpr _ r _ | VectorMatMulExpr _ r _ _
  | MatrixEwiseAddExpr _ r _ _ | MatrixEwiseMultExpr _ r _ _ | MatrixMatMulExpr _ r _ _ => r
  end.

(** [left.size], [left.nrows], [left.ncols] *)
Definition operand_attr (get : container -> result Z) (attr : string) (x : operand)
  : result Z :=
  match x with
  | Cont c => get c
  | Foreign cls => Err (AttributeError (NoAttribute cls attr))
  end.

Definition is_matrix_like (t : pytype) : bool :=
  pytype_eqb t TMatrix || pytype_eqb t TTransposedMatrix.

Definition is_container_type (t : pytype) : bool :=
  pytype_eqb t TVector || is_matrix_like t.

(** Modelled from the spec: [_expect_type] of [base.py] (section 6:
    "raises on variant mismatch, else no-op"); the TypeError it raises
    carries the arguments it was given. *)
Definition _expect_type (x : operand) (types : list pytype) (within argname : string)
  : result unit :=
  if existsb (pytype_eqb (type_of_operand x)) types then OK tt
  else Err (TypeError (ExpectType (type_of_operand x) types within argname)).

(** The constructors of the element-wise nodes read the output shape from
    the left operand. *)
Definition VectorEwiseAddExpr_init (left right : operand) : result infix_expr :=
  size <-? operand_attr get_size "size" left;
  OK (VectorEwiseAddExpr left right size).

Definition VectorEwiseMultExpr_init (left right : operand) : result infix_expr :=
  size <-? operand_attr get_size "size" left;
  OK (VectorEwiseMultExpr left right size).

Definition MatrixEwiseAddExpr_init (left right : operand) : result infix_expr :=
  nrows <-? operand_attr get_nrows "nrows" left;
  ncols <-? operand_attr get_ncols "ncols" left;
  OK (MatrixEwiseAddExpr left right nrows ncols).

Definition MatrixEwiseMultExpr_init (left right : operand) : result infix_expr :=
  nrows <-? operand_attr get_nrows "nrows" left;
  ncols <-? operand_attr get_ncols "ncols" left;
  OK (MatrixEwiseMultExpr left right nrows ncols).

(** [_ewise_infix_expr] *)
Definition _ewise_infix_expr (left right : operand) (method within : string)
  : prog infix_expr :=
  let left_type := type_of_operand left in
  let right_type := type_of_operand right in
  _ ← (if is_container_type left_type then
         if negb (pytype_eqb left_type right_type
                  || (pytype_eqb left_type TMatrix
                      && pytype_eqb right_type TTransposedMatrix)
                  || (pytype_eqb left_type TTransposedMatrix
                      && pytype_eqb right_type TMatrix))
         then
           if pytype_eqb left_type TVector
           then lift (_expect_type right [TVector] within "right")
           else lift (_expect_type right [TMatrix; TTransposedMatrix] within "right")
         else mret tt
       else if pytype_eqb right_type TVector
       then lift (_expect_type left [TVector] within "left")
       else if is_matrix_like right_type
       then lift (_expect_type left [TMatrix; TTransposedMatrix] within "left")
       else Raise (TypeError (BadTypesEwise (type_name left_type)
                                            (type_name right_type))));
  expr ← call (method_call left method right "any");
  match expr with
  | VectorExpression _ =>
      if String.eqb method "ewise_mult"
      then lift (VectorEwiseMultExpr_init left right)
      else lift (VectorEwiseAddExpr_init left right)
  | MatrixExpression _ _ =>
      if String.eqb method "ewise_mult"
      then lift (MatrixEwiseMultExpr_init left right)
      else lift (MatrixEwiseAddExpr_init left right)
  end.

(** [_matmul_infix_expr]; [method] stays unbound ([None]) on the paths that
    assign nothing to it. *)
Definition _matmul_infix_expr (left right : operand) (within : string)
  : prog infix_expr :=
  let left_type := type_of_operand left in
  let right_type := type_of_operand right in
  method ← (if pytype_eqb left_type TVector then
              if is_matrix_like right_type then mret (Some "vxm")
              else
                _ ← lift (_expect_type right [TMatrix; TTransposedMatrix]
                                       within "right");
                mret None
            else if is_matrix_like left_type then
              if pytype_eqb right_type TVector then mret (Some "mxv")
              else if is_matrix_like right_type then mret (Some "mxm")
              else
                _ ← lift (_expect_type right [TVector; TMatrix; TTransposedMatrix]
                                       within "right");
                mret None
            else if pytype_eqb right_type TVector then
              _ ← lift (_expect_type left [TMatrix; TTransposedMatrix] within "left");
              mret None
            else if is_matrix_like right_type then
              _ ← lift (_expect_type left [TVector; TMatrix; TTransposedMatrix]
                                     within "left");
              mret None
            else Raise (TypeError (BadTypesMatmul (type_name left_type)
                                                  (type_name right_type))));
  match method with
  | None => Raise (UnboundLocalError (LocalVariableUnbound "method"))
  | Some method =>
      expr ← call (method_call left method right "any_pair[bool]");
      match expr with
      | VectorExpression size => mret (VectorMatMulExpr left right method size)
      | MatrixExpression nrows ncols => mret (MatrixMatMulExpr left right nrows ncols)
      end
  end.

(** * Auxiliary definitions for the statements *)

(** Slices that resolve to the ALL marker: [:] and [0:]. *)
Definition is_all_slice (s : slice) : bool :=
  slice_eqb s (Slice None None None) || slice_eqb s (Slice (Some 0) None None).

Definition slice_step (s : slice) : Z :=
  match step s with None => 1 | Some x => x end.

Definition outcome_of {A} (r : result A) : outcome A :=
  match r with
  | OK a => Returned a
  | Err e => Failed e
  end.

Definition is_Raised {A} (o : outcome A) : bool :=
  match o with Raised _ => true | _ => false end.

(** What the fast path does: one call of [_assign_element], nothing else. *)
Definition fast_commit (eng : engine) (hist : list event) (u : Updater)
    (r : IndexerResolver) (v : pyobj) : list event * outcome unit :=
  let c := _assign_element (upd_parent u) r v in
  (hist ++ [Ev c], outcome_of (eng hist _ c)).

(** What the general path does: [_prep_for_assign] with the captured mask
    and [is_submask]; then, if that returned a delayed assignment,
    [_update] with it and all the captured parameters. *)
Definition deferred_commit (eng : engine) (hist : list event) (u : Updater)
    (r : IndexerResolver) (v : pyobj) (sub : bool) : list event * outcome unit :=
  let c := _prep_for_assign (upd_parent u) r v (kw_get (upd_kwargs u) "mask") sub in
  match eng hist _ c with
  | OK delayed =>
      let c' := _update (upd_parent u) delayed (upd_kwargs u) in
      (hist ++ [Ev c; Ev c'], outcome_of (eng (hist ++ [Ev c]) _ c'))
  | Err e => (hist ++ [Ev c], Failed e)
  end.

(** A well-behaved engine, for instantiating the statements below: every
    call succeeds; the container's own call builds a freshly parameterised
    Updater; the probe of a product checks the inner dimensions and the
    probe of an element-wise operation yields the left operand's shape. *)
Definition example_probe (left : operand) (method : string) (right : operand)
  : result probe :=
  match left, right with
  | Cont (Vector _ n), Cont (Vector _ n') =>
      if n =? n' then OK (VectorExpression n)
      else Err (OtherError "DimensionMismatch" (Text method))
  | Cont (Vector _ n), Cont (Matrix _ r k | TransposedMatrix _ r k) =>
      if n =? r then OK (VectorExpression k)
      else Err (OtherError "DimensionMismatch" (Text method))
  | Cont (Matrix _ r k | TransposedMatrix _ r k), Cont (Vector _ n) =>
      if k =? n then OK (VectorExpression r)
      else Err (OtherError "DimensionMismatch" (Text method))
  | Cont (Matrix _ r k | TransposedMatrix _ r k),
    Cont (Matrix _ r' k' | TransposedMatrix _ r' k') =>
      if String.eqb method "mxm" then
        if k =? r' then OK (MatrixExpression r k')
        else Err (OtherError "DimensionMismatch" (Text method))
      else if (r =? r') && (k =? k') then OK (MatrixExpression r k)
      else Err (OtherError "DimensionMismatch" (Text method))
  | _, _ => Err (TypeError (Text method))
  end.

Definition example_engine : engine :=
  fun hist R c =>
    match c in prim T return result T with
    | _assign_element _ _ _ => OK tt
    | _delete_element _ _ => OK tt
    | _prep_for_assign _ _ _ _ _ => OK (Expression "assign")
    | _update _ _ _ => OK tt
    | _extract_element _ _ _ _ => OK (Scalar "s_extract")
    | _prep_for_extract _ _ => OK (Expression "extract")
    | expr_new _ _ _ name => OK (Vector (default "v_new" name) 4)
    | _check_mask _ _ => OK tt
    | parent_call parent _ kwargs => OK (mkUpdater parent kwargs)
    | method_call l method r _ => example_probe l method r
    end.

(** A program commits [v] at [r] through [u] exactly when it behaves as
    the fast path on a single element with no captured parameters, and
    as the deferred path in every other case. *)
Definition commits (eng : engine) (hist : list event) (u : Updater)
    (r : IndexerResolver) (v : pyobj) (sub : bool) (p : prog unit) : Prop :=
  (is_single_element r = true -> upd_kwargs u = ∅ ->
   run eng hist p = fast_commit eng hist u r v)
  /\ (is_single_element r = false \/ upd_kwargs u <> ∅ ->
      run eng hist p = deferred_commit eng hist u r v sub).

(** The mask [M] projected through the resolver [proj]: extracted from
    the wrapped container, materialised, and rewrapped in [M]'s class. *)
Definition project_mask (M : Mask) (proj : IndexerResolver) : prog Mask :=
  mask_expr ← call (_prep_for_extract (mask M) proj);
  finish_mask M mask_expr.

(** A general extraction under the mask obtained by projecting [M] through
    [proj]. *)
Definition extract_with_mask (self : AmbiguousAssignOrExtract) (M : Mask)
    (proj : IndexerResolver) (dtype name : option string) : prog container :=
  derived ← project_mask M proj;
  delayed ← call (_prep_for_extract (amb_parent self) (amb_resolved_indexes self));
  call (expr_new delayed dtype (Some derived) name).

(** The multiply dispatch table as the specification words it: Vector by
    Matrix-like is [vxm], Matrix-like by Vector is [mxv], Matrix-like by
    Matrix-like is [mxm]; no other pairing is recognised. *)
Definition spec_matmul_method (lt rt : pytype) : option string :=
  if pytype_eqb lt TVector && is_matrix_like rt then Some "vxm"
  else if is_matrix_like lt && pytype_eqb rt TVector then Some "mxv"
  else if is_matrix_like lt && is_matrix_like rt then Some "mxm"
  else None.

(** The compatible element-wise pairings as the specification words them:
    Vector with Vector, Matrix-like with Matrix-like. *)
Definition spec_ewise_compatible (lt rt : pytype) : bool :=
  (pytype_eqb lt TVector && pytype_eqb rt TVector)
  || (is_matrix_like lt && is_matrix_like rt).

(** The argument a TypeError of [_expect_type] names, if it names one. *)
Definition named_argument (e : exn) : option string :=
  match e with
  | TypeError (ExpectType _ _ _ argname) => Some argname
  | _ => None
  end.

(** ** Reading through the staging object *)

(** [AmbiguousAssignOrExtract._extract_delayed] *)
Definition Ambiguous__extract_delayed (self : AmbiguousAssignOrExtract)
  : prog expression :=
  call (_prep_for_extract (amb_parent self) (amb_resolved_indexes self)).

Section ElementReads.

(** The [value] property of the extracted Scalar and the Python operations
    applied to it ([==], [bool], [float], [int]) belong to other modules;
    they are parameters here, and an exception they raise propagates. *)
Variable scalar_value : container -> result pyobj.
Variable py_eq : pyobj -> pyobj -> result pyobj.
Variable py_bool py_float py_int : pyobj -> result pyobj.

(** [AmbiguousAssignOrExtract.value] *)
Definition Ambiguous_value (self : AmbiguousAssignOrExtract) : prog pyobj :=
  if negb (is_single_element (amb_resolved_indexes self))
  then Raise (AttributeError (Text "Only Scalars have `.value` attribute"))
  else
    scalar ← call (_extract_element (amb_parent self) (amb_resolved_indexes self)
                                    None (Some "s_extract"));
    lift (scalar_value scalar).

(** [AmbiguousAssignOrExtract.__eq__] *)
Definition Ambiguous___eq__ (self : AmbiguousAssignOrExtract) (other : pyobj)
  : prog pyobj :=
  if negb (is_single_element (amb_resolved_indexes self))
  then Raise (TypeError (Text
    "__eq__ not defined for objects of type <class 'grblas.expr.AmbiguousAssignOrExtract'>.  Use `.new()` to create a new object, then use `.isequal` method."))
  else
    v ← Ambiguous_value self;
    lift (py_eq v other).

(** [AmbiguousAssignOrExtract.__bool__] *)
Definition Ambiguous___bool__ (self : AmbiguousAssignOrExtract) : prog pyobj :=
  if negb (is_single_element (amb_resolved_indexes self))
  then Raise (TypeError (Text
    "__bool__ not defined for objects of type <class 'grblas.expr.AmbiguousAssignOrExtract'>."))
  else
    v ← Ambiguous_value self;
    lift (py_bool v).

(** [AmbiguousAssignOrExtract.__float__] *)
Definition Ambiguous___float__ (self : AmbiguousAssignOrExtract) : prog pyobj :=
  if negb (is_single_element (amb_resolved_indexes self))
  then Raise (TypeError (Text
    "__float__ not defined for objects of type <class 'grblas.expr.AmbiguousAssignOrExtract'>."))
  else
    v ← Ambiguous_value self;
    lift (py_float v).

(** [AmbiguousAssignOrExtract.__int__], which is also [__index__] *)
Definition Ambiguous___int__ (self : AmbiguousAssignOrExtract) : prog pyobj :=
  if negb (is_single_element (amb_resolved_indexes self))
  then Raise (TypeError (Text
    "__int__ not defined for objects of type <class 'grblas.expr.AmbiguousAssignOrExtract'>."))
  else
    v ← Ambiguous_value self;
    lift (py_int v).

End ElementReads.

(** What reading a single element does: one call of [_extract_element]
    with no dtype and the name "s_extract"; then the [value] of the Scalar
    it returned, passed through [conv]. *)
Definition single_read (eng : engine) (hist : list event)
    (self : AmbiguousAssignOrExtract) (scalar_value : container -> result pyobj)
    (conv : pyobj -> result pyobj) : list event * outcome pyobj :=
  let c := _extract_element (amb_parent self) (amb_resolved_indexes self)
                            None (Some "s_extract") in
  (hist ++ [Ev c],
   match eng hist _ c with
   | Err e => Failed e
   | OK scalar =>
       match rbind (scalar_value scalar) conv with
       | OK x => Returned x
       | Err e => Raised e
       end
   end).

(** The integers [a, a+1, ..., b-1]. *)
Definition interval (a b : Z) : list Z :=
  map (fun k => a + Z.of_nat k) (seq 0 (Z.to_nat (b - a))).

(** Whether a raw index is a plain integer. *)
Definition is_int_key (x : raw_index) : bool :=
  match x with RObj (IInt _) => true | _ => false end.

(** ** The index wrappers *)

(** In [carg] the constructors [_CScalar] and [_CArray] stand for wrappers
    that were built.  Building one is a call into [scalar.py] or
    [utils.py], which may refuse the value; [parse_index_wrapped] is
    [parse_index] with these two constructor calls as parameters, each
    made where the source makes it. *)
Section IndexWrappers.

Variable new_CScalar : Z -> result carg.
Variable new_CArray : list Z -> result carg.

Definition parse_index_wrapped (index : index_obj) (size : Z) : result IndexSpec :=
  match index with
  | IInt i =>
      if size <=? i then Err (IndexError (IndexOutOfRange i size))
      else
        scalar <-? new_CScalar i;
        OK (scalar, None)
  | ISlice s =>
      if slice_eqb s (Slice None None None) || slice_eqb s (Slice (Some 0) None None)
      then
        count <-? new_CScalar size;
        OK (_ALL_INDICES, Some count)
      else
        items <-? range_getslice size s;
        array <-? new_CArray items;
        count <-? new_CScalar (len_Z items);
        OK (array, Some count)
  | IArray a =>
      if negb (length (nd_shape a) =? 1)%nat
      then Err (TypeError (InvalidNumberOfDimensions (length (nd_shape a))))
      else if negb (nd_integer a) then Err (TypeError InvalidDtype)
      else
        array <-? new_CArray (nd_data a);
        count <-? new_CScalar (Z.of_nat (hd 0%nat (nd_shape a)));
        OK (array, Some count)
  | IList l =>
      array <-? new_CArray l;
      count <-? new_CScalar (len_Z l);
      OK (array, Some count)
  | IOther None => Err (TypeError UnableToConvertToTuple)
  | IOther (Some items) =>
      array <-? new_CArray items;
      count <-? new_CScalar (len_Z items);
      OK (array, Some count)
  end.

End IndexWrappers.

(** Wrappers that hold an unsigned 64-bit value, the engine's index type:
    a value outside [0, 2^64) is refused with OverflowError. *)
Definition in_uint64 (v : Z) : bool := (0 <=? v) && (v <? 2 ^ 64).

Definition uint64_CScalar (v : Z) : result carg :=
  if in_uint64 v then OK (_CScalar v)
  else Err (OtherError "OverflowError" (Text "can't convert to unsigned 64-bit integer")).

Definition uint64_CArray (items : list Z) : result carg :=
  if forallb in_uint64 items then OK (_CArray items)
  else Err (OtherError "OverflowError" (Text "can't convert to unsigned 64-bit integer")).

(** An engine like [example_engine] in which a transposed view cannot be
    called: the call of [AmbiguousAssignOrExtract.__call__] on it fails. *)
Definition uncallable_view_engine : engine :=
  fun hist R c =>
    match c in prim T return result T with
    | parent_call parent args kwargs =>
        if _is_transposed parent
        then Err (TypeError (Text "'TransposedMatrix' object is not callable"))
        else example_engine hist _ (parent_call parent args kwargs)
    | c' => example_engine hist _ c'
    end.

(** * Properties *)

(** ** Index resolution *)

Section IndexResolution.

Implicit Types (i size lo hi st : Z) (s : slice).

Lemma parse_index_int i size :
  parse_index (IInt i) size =
    if size <=? i then Err (IndexError (IndexOutOfRange i size))
    else OK (_CScalar i, None).
Proof. reflexivity. Qed.

(** The bounds check lets an integer index through exactly when it is
    below the size (the wrapper it is then handed to is the subject of
    [parse_index_wrapped]). *)
Lemma parse_index_int_resolves i size :
  (exists spec, parse_index (IInt i) size = OK spec) <-> i < size.
Proof.
  rewrite parse_index_int.
  destruct (Z.leb_spec size i); split.
  - intros [spec H']; discriminate.
  - lia.
  - lia.
  - intros _; eauto.
Qed.

Lemma parse_index_int_raises i size :
  size <= i -> parse_index (IInt i) size = Err (IndexError (IndexOutOfRange i size)).
Proof.
  intros H. rewrite parse_index_int.
  destruct (Z.leb_spec size i); [reflexivity | lia].
Qed.

Lemma parse_index_int_in_range i size :
  0 <= i < size -> parse_index (IInt i) size = OK (_CScalar i, None).
Proof.
  intros H. rewrite parse_index_int.
  destruct (Z.leb_spec size i); [lia | reflexivity].
Qed.

Lemma clamp_bound_range v default lower upper length :
  lower <= default <= upper -> lower <= 0 -> length - 1 <= upper ->
  lower <= clamp_bound v default lower upper length <= upper.
Proof.
  intros Hd Hlo Hl. unfold clamp_bound.
  destruct v as [x|]; [|lia].
  destruct (Z.ltb_spec x 0); lia.
Qed.

Lemma length_range_items lo hi st :
  length (range_items lo hi st) = range_len lo hi st.
Proof. unfold range_items. now rewrite length_map, length_seq. Qed.

Lemma range_items_lookup lo hi st (k : nat) x :
  range_items lo hi st !! k = Some x ->
  (k < range_len lo hi st)%nat /\ x = lo + Z.of_nat k * st.
Proof.
  unfold range_items. rewrite list_lookup_fmap.
  destruct (seq 0 (range_len lo hi st) !! k) as [j|] eqn:E; [|discriminate].
  apply lookup_seq in E as [-> Hk]. simpl. intros [= <-]. split; [lia | reflexivity].
Qed.

(** Going up: every element lies in [[lo, hi)]. *)
Lemma range_items_up lo hi st (k : nat) :
  0 < st -> (k < range_len lo hi st)%nat -> lo <= lo + Z.of_nat k * st < hi.
Proof.
  intros Hst. unfold range_len.
  destruct (Z.ltb_spec 0 st); [|lia].
  destruct (Z.ltb_spec lo hi); [|lia].
  intros Hk.
  assert (Hq : 0 <= (hi - lo - 1) / st) by (apply Z.div_pos; lia).
  assert (Hm : st * ((hi - lo - 1) / st) <= hi - lo - 1)
    by (apply Z.mul_div_le; lia).
  assert (Z.of_nat k <= (hi - lo - 1) / st) by lia.
  nia.
Qed.

(** Going down: every element lies in [(hi, lo]]. *)
Lemma range_items_down lo hi st (k : nat) :
  st < 0 -> (k < range_len lo hi st)%nat -> hi < lo + Z.of_nat k * st <= lo.
Proof.
  intros Hst. unfold range_len.
  destruct (Z.ltb_spec 0 st); [lia|].
  destruct (Z.ltb_spec hi lo); [|lia].
  intros Hk.
  assert (Hq : 0 <= (lo - hi - 1) / (- st)) by (apply Z.div_pos; lia).
  assert (Hm : (- st) * ((lo - hi - 1) / (- st)) <= lo - hi - 1)
    by (apply Z.mul_div_le; lia).
  assert (Z.of_nat k <= (lo - hi - 1) / (- st)) by lia.
  nia.
Qed.

(** The expansion of a slice stays inside the dimension and advances by
    the step. *)
Lemma range_getslice_spec size s :
  0 <= size -> slice_step s <> 0 ->
  exists items,
    range_getslice size s = OK items
    /\ (forall (k : nat) x, items !! k = Some x -> 0 <= x < size)
    /\ (forall (k : nat) x y,
          items !! k = Some x -> items !! S k = Some y -> y = x + slice_step s).
Proof.
  intros Hsize Hstep. unfold range_getslice. fold (slice_step s).
  destruct (Z.eqb_spec (slice_step s) 0) as [|_]; [contradiction|].
  eexists; split; [reflexivity|]. split.
  - intros k x Hx. apply range_items_lookup in Hx as [Hk ->].
    destruct (Z.ltb_spec (slice_step s) 0) as [Hneg|Hpos].
    + apply range_items_down in Hk; [|assumption].
      match type of Hk with
      | ?h < _ <= ?l =>
          assert (-1 <= h <= size - 1) by (apply clamp_bound_range; lia);
          assert (-1 <= l <= size - 1) by (apply clamp_bound_range; lia)
      end. lia.
    + apply range_items_up in Hk; [|lia].
      match type of Hk with
      | ?l <= _ < ?h =>
          assert (0 <= h <= size) by (apply clamp_bound_range; lia);
          assert (0 <= l <= size) by (apply clamp_bound_range; lia)
      end. lia.
  - intros k x y Hx Hy.
    apply range_items_lookup in Hx as [_ ->].
    apply range_items_lookup in Hy as [_ ->]. lia.
Qed.

End IndexResolution.

(** ** Running programs *)

Section Run.

Context {A B : Type}.
Implicit Types (eng : engine) (hist : list event).

Lemma run_call eng hist R (c : prim R) :
  run eng hist (call c) = (hist ++ [Ev c], outcome_of (eng hist _ c)).
Proof. simpl. destruct (eng hist R c); reflexivity. Qed.

Lemma run_bind eng hist (p : prog A) (f : A -> prog B) :
  run eng hist (p ≫= f) =
    match run eng hist p with
    | (h, Returned a) => run eng h (f a)
    | (h, Raised e) => (h, Raised e)
    | (h, Failed e) => (h, Failed e)
    end.
Proof.
  revert hist. induction p as [a|e|R c k IH]; intros hist; try reflexivity.
  simpl. destruct (eng hist R c) as [r|e]; [apply IH | reflexivity].
Qed.

Lemma run_lift eng hist (r : result A) :
  run eng hist (lift r) =
    (hist, match r with OK a => Returned a | Err e => Raised e end).
Proof. destruct r; reflexivity. Qed.

(** A program only ever extends the history. *)
Lemma run_extends eng hist (p : prog A) :
  exists evs, fst (run eng hist p) = hist ++ evs.
Proof.
  revert hist. induction p as [a|e|R c k IH]; intros hist; simpl.
  - exists []. now rewrite app_nil_r.
  - exists []. now rewrite app_nil_r.
  - destruct (eng hist R c) as [r|e].
    + destruct (IH r (hist ++ [Ev c])) as [evs ->].
      exists (Ev c :: evs). now rewrite <- app_assoc.
    + now exists [Ev c].
Qed.

End Run.

(** ** The commit routine *)

Section Commit.

Implicit Types (eng : engine) (hist : list event) (u : Updater)
  (r : IndexerResolver) (v : pyobj) (sub : bool).

Lemma kw_is_empty_true u : kw_is_empty (upd_kwargs u) = true <-> upd_kwargs u = ∅.
Proof. unfold kw_is_empty. apply bool_decide_eq_true. Qed.

Lemma setitem_fast eng hist u r v sub :
  is_single_element r = true -> upd_kwargs u = ∅ ->
  run eng hist (Updater__setitem u r v sub) = fast_commit eng hist u r v.
Proof.
  intros Hs Hk. unfold Updater__setitem.
  apply kw_is_empty_true in Hk. rewrite Hs, Hk. simpl andb. cbv iota.
  apply run_call.
Qed.

Lemma setitem_deferred eng hist u r v sub :
  is_single_element r = false \/ upd_kwargs u <> ∅ ->
  run eng hist (Updater__setitem u r v sub) = deferred_commit eng hist u r v sub.
Proof.
  intros H. unfold Updater__setitem, deferred_commit.
  assert (Hc : is_single_element r && kw_is_empty (upd_kwargs u) = false).
  { apply andb_false_iff. destruct H as [H|H]; [now left | right].
    apply not_true_is_false. now rewrite kw_is_empty_true. }
  rewrite Hc. simpl.
  destruct (eng hist expression _) as [d|e]; [|reflexivity].
  simpl. rewrite <- app_assoc. simpl.
  destruct (eng _ unit _); reflexivity.
Qed.

(** The commit routine makes at least one call and raises nothing itself. *)
Lemma setitem_calls eng hist u r v sub :
  exists c evs o,
    run eng hist (Updater__setitem u r v sub) = (hist ++ c :: evs, o)
    /\ is_Raised o = false
    /\ (c = Ev (_assign_element (upd_parent u) r v)
        \/ c = Ev (_prep_for_assign (upd_parent u) r v
                                    (kw_get (upd_kwargs u) "mask") sub)).
Proof.
  destruct (is_single_element r && kw_is_empty (upd_kwargs u)) eqn:E.
  - apply andb_true_iff in E as [Hs Hk]. apply kw_is_empty_true in Hk.
    rewrite (setitem_fast eng hist u r v sub Hs Hk). unfold fast_commit.
    eexists _, [], _. split; [reflexivity|]. split; [|now left].
    destruct (eng hist unit _); reflexivity.
  - rewrite setitem_deferred.
    + unfold deferred_commit.
      destruct (eng hist expression _) as [d|e].
      * eexists _, [_], _. split; [reflexivity|]. split; [|now right].
        destruct (eng _ unit _); reflexivity.
      * eexists _, [], _. split; [reflexivity|]. split; [reflexivity|now right].
    + apply andb_false_iff in E as [E|E]; [now left | right].
      intros Hk. apply kw_is_empty_true in Hk. congruence.
Qed.

End Commit.

Section CommitDispatch.

Implicit Types (eng : engine) (hist : list event) (u : Updater)
  (r : IndexerResolver) (v : pyobj) (sub : bool).

(** C1: every commit of a value through an Updater -- [_setitem] itself,
    an Assigner's [update] and [<<], and [C(params)[index] = v] once the
    index is resolved -- calls exactly [_assign_element] when the resolved
    index is single-element and no call parameters were captured, and
    otherwise calls [_prep_for_assign] with the captured mask and the
    [is_submask] flag, followed by [_update] with the delayed assignment
    and all captured parameters. *)
Theorem updater_commit_dispatch eng hist u r v sub :
  commits eng hist u r v sub (Updater__setitem u r v sub)
  /\ commits eng hist u r v sub (Assigner_update (mkAssigner u r sub) v)
  /\ commits eng hist u r v sub (Assigner___lshift__ (mkAssigner u r sub) v)
  /\ (forall keys,
        _is_scalar (upd_parent u) = false ->
        IndexerResolver_init (upd_parent u) keys = OK r ->
        commits eng hist u r v false (Updater___setitem__ u keys v)).
Proof.
  assert (H : forall sub', commits eng hist u r v sub' (Updater__setitem u r v sub')).
  { intros sub'. split; [apply setitem_fast | apply setitem_deferred]. }
  repeat split; try apply H.
  - intros Hs Hk. unfold Updater___setitem__. rewrite H0, H1. simpl.
    now apply setitem_fast.
  - intros Hc. unfold Updater___setitem__. rewrite H0, H1. simpl.
    now apply setitem_deferred.
Qed.

Lemma updater_commit_dispatch_witness :
  let A := Matrix "A" 3 4 in
  let r1 := mkResolver A [(_CScalar 1, None); (_CScalar 2, None)] in
  let r2 := mkResolver A [(_CScalar 1, None); (_ALL_INDICES, Some (_CScalar 4))] in
  let kw : gmap string kwval := {["replace" := KObj (PyObj "True")]} in
  run example_engine [] (Updater__setitem (mkUpdater A ∅) r1 (PyObj "7") false)
    = ([Ev (_assign_element A r1 (PyObj "7"))], Returned tt)
  /\ run example_engine [] (Updater__setitem (mkUpdater A kw) r1 (PyObj "7") true)
     = ([Ev (_prep_for_assign A r1 (PyObj "7") KNone true);
         Ev (_update A (Expression "assign") kw)], Returned tt)
  /\ run example_engine []
       (Updater___setitem__ (mkUpdater A ∅)
          (RTuple [RObj (IInt 1); RObj (ISlice (Slice None None None))]) (PyObj "7"))
     = ([Ev (_prep_for_assign A r2 (PyObj "7") KNone false);
         Ev (_update A (Expression "assign") ∅)], Returned tt).
Proof.
  intros A r1 r2 kw. split; [|split].
  - exact (proj1 (proj1 (updater_commit_dispatch example_engine [] (mkUpdater A ∅)
                           r1 (PyObj "7") false)) eq_refl eq_refl).
  - refine (proj2 (proj1 (updater_commit_dispatch example_engine [] (mkUpdater A kw)
                            r1 (PyObj "7") true)) _).
    right. apply insert_non_empty.
  - refine (proj2 (proj2 (proj2 (proj2
              (updater_commit_dispatch example_engine [] (mkUpdater A ∅)
                 r2 (PyObj "7") false)))
              (RTuple [RObj (IInt 1); RObj (ISlice (Slice None None None))])
              eq_refl eq_refl) _).
    left. reflexivity.
Defined.

End CommitDispatch.

(** ** Resolved indexers *)

Section Resolver.

Implicit Types (c : container) (keys : raw_index) (r : IndexerResolver)
  (eng : engine) (hist : list event) (u : Updater) (v : pyobj).

Lemma rbind_OK {A B} (x : result A) (f : A -> result B) b :
  rbind x f = OK b -> exists a, x = OK a /\ f a = OK b.
Proof. destruct x as [a|e]; simpl; [eauto | discriminate]. Qed.

Lemma parse_loop_length (l : list raw_index) : forall (i : nat) shape out,
  parse_loop i l shape = OK out -> length out = length l.
Proof.
  induction l as [|idx rest IH]; intros i shape out; simpl.
  - now intros [= <-].
  - destruct idx as [x|]; [|discriminate].
    destruct (nth_error shape i) as [size|]; [|discriminate].
    intros H. apply rbind_OK in H as (spec & _ & H).
    apply rbind_OK in H as (out' & Hrest & [= <-]).
    simpl. f_equal. eauto.
Qed.

Lemma parse_loop_no_shape (l : list raw_index) (i : nat) out :
  parse_loop i l [] = OK out -> out = [].
Proof.
  destruct l as [|[x|] rest]; simpl.
  - now intros [= <-].
  - now destruct i.
  - discriminate.
Qed.

Lemma parse_indices_length ty keys c out :
  parse_indices ty keys (shape c) = OK out -> length out = length (shape c).
Proof.
  unfold parse_indices. destruct c; cbn -[parse_loop].
  - intros H. apply rbind_OK in H as (l & _ & H).
    now rewrite (parse_loop_no_shape _ _ _ H).
  - destruct (is_tuple keys); [discriminate|].
    intros H. now apply parse_loop_length in H.
  - destruct keys as [|[|a [|b [|]]]]; try discriminate.
    intros H. now apply parse_loop_length in H.
  - destruct keys as [|[|a [|b [|]]]]; try discriminate.
    intros H. now apply parse_loop_length in H.
Qed.

Lemma resolver_init_length c keys r :
  IndexerResolver_init c keys = OK r ->
  obj r = c /\ length (indices r) = length (shape c).
Proof.
  unfold IndexerResolver_init. intros H.
  apply rbind_OK in H as (specs & Hspecs & [= <-]). simpl.
  split; [reflexivity | now apply parse_indices_length in Hspecs].
Qed.

(** The projection onto one dimension keeps the container and holds that
    dimension's spec alone. *)
Lemma get_index_single_spec r (dim : nat) r' :
  get_index r dim = OK r' ->
  obj r' = obj r /\ exists spec, indices r !! dim = Some spec /\ indices r' = [spec].
Proof.
  unfold get_index. destruct (nth_error (indices r) dim) as [spec|] eqn:E; [|discriminate].
  intros [= <-]. split; [reflexivity|]. exists spec.
  split; [|reflexivity]. clear -E.
  revert dim E. induction (indices r) as [|x l IH]; intros [|dim]; simpl; try discriminate; auto.
Qed.

Lemma scalar_guard u keys v eng hist :
  _is_scalar (upd_parent u) = true ->
  Updater___getitem__ u keys = Err (TypeError IndexingNotSupportedForScalars)
  /\ run eng hist (Updater___setitem__ u keys v)
     = (hist, Raised (TypeError IndexingNotSupportedForScalars))
  /\ run eng hist (Updater___delitem__ u keys)
     = (hist, Raised (TypeError IndexingNotSupportedForScalars)).
Proof.
  intros H. unfold Updater___getitem__, Updater___setitem__, Updater___delitem__.
  now rewrite H.
Qed.

(** C9, as stated, fails: the projection [get_index] builds a resolver
    whose object is still the two-dimensional parent and which holds one
    IndexSpec, not two. *)
Lemma projection_keeps_parent_with_one_spec :
  let A := Matrix "A" 3 4 in
  let R := mkResolver A [(_CScalar 1, None); (_ALL_INDICES, Some (_CScalar 4))] in
  let P := mkResolver A [(_ALL_INDICES, Some (_CScalar 4))] in
  IndexerResolver_init A (RTuple [RObj (IInt 1); RObj (ISlice (Slice None None None))])
  = OK R
  /\ get_index R 1 = OK P
  /\ length (shape (obj P)) = 2%nat
  /\ length (indices P) = 1%nat.
Proof. repeat split. Qed.

(** C9, amended: a resolver built by the constructor
    [IndexerResolver(obj, indices)] holds one IndexSpec for a Vector and
    two for a Matrix or transposed Matrix, the container's dimensionality;
    a resolver built by the projection [get_index] keeps the object it
    was projected from and holds exactly one IndexSpec; and on a
    Scalar-bound Updater every indexing path ([u[keys]], [u[keys] = v],
    [del u[keys]]) raises the TypeError "Indexing not supported for
    Scalars" whatever the keys are, before any resolver is built and with
    no call into the engine. *)
Theorem resolver_length_is_dimensionality :
  (forall c keys r,
      IndexerResolver_init c keys = OK r ->
      obj r = c
      /\ length (indices r) = length (shape c)
      /\ (type_of c = TVector -> length (indices r) = 1%nat)
      /\ (is_matrix_like (type_of c) = true -> length (indices r) = 2%nat))
  /\ (forall r (dim : nat) r',
        get_index r dim = OK r' ->
        obj r' = obj r /\ length (indices r') = 1%nat)
  /\ (forall u keys v eng hist,
        _is_scalar (upd_parent u) = true ->
        Updater___getitem__ u keys = Err (TypeError IndexingNotSupportedForScalars)
        /\ run eng hist (Updater___setitem__ u keys v)
           = (hist, Raised (TypeError IndexingNotSupportedForScalars))
        /\ run eng hist (Updater___delitem__ u keys)
           = (hist, Raised (TypeError IndexingNotSupportedForScalars))).
Proof.
  split; [|split].
  - intros c keys r H. apply resolver_init_length in H as [Ho Hl].
    split; [assumption|]. split; [assumption|].
    rewrite Hl. destruct c; cbn; split; intros; congruence.
  - intros r dim r' H.
    apply get_index_single_spec in H as (Ho & spec & _ & Hi).
    split; [assumption | now rewrite Hi].
  - intros. now apply scalar_guard.
Qed.

Lemma resolver_length_is_dimensionality_witness :
  let v := Vector "v" 5 in
  let A := TransposedMatrix "A" 3 4 in
  let rv := mkResolver v [(_CArray [1; 2; 3], Some (_CScalar 3))] in
  let rA := mkResolver A [(_CScalar 2, None); (_ALL_INDICES, Some (_CScalar 4))] in
  let pA := mkResolver A [(_CScalar 2, None)] in
  (IndexerResolver_init v (RObj (ISlice (Slice (Some 1) (Some 4) None))) = OK rv
   /\ length (indices rv) = 1%nat)
  /\ (IndexerResolver_init A (RTuple [RObj (IInt 2); RObj (ISlice (Slice None None None))])
      = OK rA /\ length (indices rA) = 2%nat)
  /\ (get_index rA 0 = OK pA /\ obj pA = obj rA /\ length (indices pA) = 1%nat)
  /\ Updater___getitem__ (mkUpdater (Scalar "s") ∅) (RTuple [])
     = Err (TypeError IndexingNotSupportedForScalars).
Proof.
  intros v A rv rA pA. split; [|split; [|split]].
  - split; [reflexivity|].
    exact (proj1 (proj2 (proj2 (proj1 resolver_length_is_dimensionality v
             (RObj (ISlice (Slice (Some 1) (Some 4) None))) rv eq_refl))) eq_refl).
  - split; [reflexivity|].
    exact (proj2 (proj2 (proj2 (proj1 resolver_length_is_dimensionality A
             (RTuple [RObj (IInt 2); RObj (ISlice (Slice None None None))]) rA eq_refl)))
             eq_refl).
  - split; [reflexivity|].
    exact (proj1 (proj2 resolver_length_is_dimensionality) rA 0%nat pA eq_refl).
  - exact (proj1 (proj2 (proj2 resolver_length_is_dimensionality)
             (mkUpdater (Scalar "s") ∅) (RTuple []) (PyObj "x") example_engine []
             eq_refl)).
Defined.

End Resolver.

(** ** Errors of this layer come before any call into the engine *)

Section NoPartialState.

Implicit Types (eng : engine) (hist tr : list event) (u : Updater)
  (keys : raw_index) (r : IndexerResolver) (v : pyobj) (a : Assigner) (e : exn).

Lemma setitem_never_raises eng hist u r v sub tr e :
  run eng hist (Updater__setitem u r v sub) <> (tr, Raised e).
Proof.
  destruct (setitem_calls eng hist u r v sub) as (c & evs & o & -> & Ho & _).
  intros [= _ ->]. discriminate.
Qed.

Lemma dunder_setitem_resolved eng hist u keys v r :
  _is_scalar (upd_parent u) = false ->
  IndexerResolver_init (upd_parent u) keys = OK r ->
  run eng hist (Updater___setitem__ u keys v)
  = run eng hist (Updater__setitem u r v false).
Proof. intros Hs Hr. unfold Updater___setitem__. now rewrite Hs, Hr. Qed.

Lemma dunder_setitem_unresolved eng hist u keys v e :
  _is_scalar (upd_parent u) = false ->
  IndexerResolver_init (upd_parent u) keys = Err e ->
  run eng hist (Updater___setitem__ u keys v) = (hist, Raised e).
Proof. intros Hs Hr. unfold Updater___setitem__. now rewrite Hs, Hr. Qed.

Lemma dunder_delitem_unresolved eng hist u keys e :
  _is_scalar (upd_parent u) = false ->
  IndexerResolver_init (upd_parent u) keys = Err e ->
  run eng hist (Updater___delitem__ u keys) = (hist, Raised e).
Proof. intros Hs Hr. unfold Updater___delitem__. now rewrite Hs, Hr. Qed.

Lemma dunder_delitem_resolved eng hist u keys r :
  _is_scalar (upd_parent u) = false ->
  IndexerResolver_init (upd_parent u) keys = OK r ->
  run eng hist (Updater___delitem__ u keys)
  = if is_single_element r
    then (hist ++ [Ev (_delete_element (upd_parent u) r)],
          outcome_of (eng hist _ (_delete_element (upd_parent u) r)))
    else (hist, Raised (TypeError RemoveElementSingleIndex)).
Proof.
  intros Hs Hr. unfold Updater___delitem__. rewrite Hs, Hr. simpl.
  destruct (is_single_element r); [|reflexivity].
  simpl. destruct (eng hist unit _); reflexivity.
Qed.

Lemma dunder_setitem_raised eng hist u keys v tr e :
  run eng hist (Updater___setitem__ u keys v) = (tr, Raised e) -> tr = hist.
Proof.
  destruct (_is_scalar (upd_parent u)) eqn:Hs.
  - rewrite (proj1 (proj2 (scalar_guard u keys v eng hist Hs))). now intros [= <- _].
  - destruct (IndexerResolver_init (upd_parent u) keys) as [r|e'] eqn:Hr.
    + rewrite (dunder_setitem_resolved _ _ _ _ _ _ Hs Hr).
      intros H. now apply setitem_never_raises in H.
    + rewrite (dunder_setitem_unresolved _ _ _ _ _ _ Hs Hr). now intros [= <- _].
Qed.

Lemma dunder_delitem_raised eng hist u keys tr e :
  run eng hist (Updater___delitem__ u keys) = (tr, Raised e) -> tr = hist.
Proof.
  destruct (_is_scalar (upd_parent u)) eqn:Hs.
  - rewrite (proj2 (proj2 (scalar_guard u keys (PyObj "") eng hist Hs))).
    now intros [= <- _].
  - destruct (IndexerResolver_init (upd_parent u) keys) as [r|e'] eqn:Hr.
    + rewrite (dunder_delitem_resolved _ _ _ _ _ Hs Hr).
      destruct (is_single_element r).
      * destruct (eng hist unit _); discriminate.
      * now intros [= <- _].
    + rewrite (dunder_delitem_unresolved _ _ _ _ _ Hs Hr). now intros [= <- _].
Qed.

(** C8: in [C(params)[index] = v] and [del C(params)[index]] an error
    raised by this layer -- the Scalar guard, any error of index
    resolution, the multi-element delete -- is raised with the history of
    engine calls unchanged: none of [_assign_element], [_delete_element],
    [_prep_for_assign], [_update] has been called.  An Assigner holds an
    index that is already resolved, and its [update] and [<<] raise no error
    of this layer at all. *)
Theorem commit_raises_before_any_call eng hist u keys v a :
  (forall tr e, run eng hist (Updater___setitem__ u keys v) = (tr, Raised e) -> tr = hist)
  /\ (forall tr e, run eng hist (Updater___delitem__ u keys) = (tr, Raised e) -> tr = hist)
  /\ (forall tr e, run eng hist (Assigner_update a v) <> (tr, Raised e))
  /\ (forall tr e, run eng hist (Assigner___lshift__ a v) <> (tr, Raised e))
  /\ (_is_scalar (upd_parent u) = true ->
      run eng hist (Updater___setitem__ u keys v)
      = (hist, Raised (TypeError IndexingNotSupportedForScalars))
      /\ run eng hist (Updater___delitem__ u keys)
         = (hist, Raised (TypeError IndexingNotSupportedForScalars)))
  /\ (forall e,
        _is_scalar (upd_parent u) = false ->
        IndexerResolver_init (upd_parent u) keys = Err e ->
        run eng hist (Updater___setitem__ u keys v) = (hist, Raised e)
        /\ run eng hist (Updater___delitem__ u keys) = (hist, Raised e))
  /\ (forall r,
        _is_scalar (upd_parent u) = false ->
        IndexerResolver_init (upd_parent u) keys = OK r ->
        is_single_element r = false ->
        run eng hist (Updater___delitem__ u keys)
        = (hist, Raised (TypeError RemoveElementSingleIndex))).
Proof.
  split; [intros tr e; apply dunder_setitem_raised|].
  split; [intros tr e; apply dunder_delitem_raised|].
  split; [intros tr e; apply setitem_never_raises|].
  split; [intros tr e; apply setitem_never_raises|].
  split; [intros Hs; split; apply (scalar_guard u keys v eng hist Hs)|].
  split.
  - intros e Hs Hr. split.
    + now apply dunder_setitem_unresolved.
    + now apply dunder_delitem_unresolved.
  - intros r Hs Hr Hm. rewrite (dunder_delitem_resolved _ _ _ _ _ Hs Hr). now rewrite Hm.
Qed.

Lemma commit_raises_before_any_call_witness :
  let u := mkUpdater (Vector "v" 5) {["accum" := KObj (PyObj "plus")]} in
  run example_engine [] (Updater___setitem__ u (RObj (IInt 7)) (PyObj "1"))
  = ([], Raised (IndexError (IndexOutOfRange 7 5)))
  /\ run example_engine [] (Updater___delitem__ u (RObj (IList [0; 1])))
     = ([], Raised (TypeError RemoveElementSingleIndex))
  /\ run example_engine []
       (Updater___delitem__ (mkUpdater (Scalar "s") ∅) (RObj (IInt 0)))
     = ([], Raised (TypeError IndexingNotSupportedForScalars))
  /\ fst (run example_engine [] (Updater___setitem__ u (RObj (IInt 7)) (PyObj "1")))
     = [].
Proof.
  intros u.
  pose (a := mkAssigner u (mkResolver (Vector "v" 5) [(_CScalar 1, None)]) false).
  split; [|split; [|split]]; cycle 3.
  - exact (proj1 (commit_raises_before_any_call example_engine [] u (RObj (IInt 7))
                    (PyObj "1") a) [] (IndexError (IndexOutOfRange 7 5)) eq_refl).
  - exact (proj1 (proj1 (proj2 (proj2 (proj2 (proj2 (proj2
             (commit_raises_before_any_call example_engine [] u (RObj (IInt 7))
                (PyObj "1") a)))))) _ eq_refl eq_refl)).
  - exact (proj2 (proj2 (proj2 (proj2 (proj2 (proj2
             (commit_raises_before_any_call example_engine [] u (RObj (IList [0; 1]))
                (PyObj "1") a))))))
             (mkResolver (Vector "v" 5) [(_CArray [0; 1], Some (_CScalar 2))])
             eq_refl eq_refl eq_refl).
  - exact (proj2 (proj1 (proj2 (proj2 (proj2 (proj2
             (commit_raises_before_any_call example_engine []
                (mkUpdater (Scalar "s") ∅) (RObj (IInt 0)) (PyObj "1") a)))))
             eq_refl)).
Defined.

End NoPartialState.

(** ** Staging an assignment *)

Section Staging.

Implicit Types (eng : engine) (hist : list event) (u : Updater)
  (keys : raw_index) (r : IndexerResolver) (v : pyobj)
  (self : AmbiguousAssignOrExtract).

Lemma assigner_init_input_mask u r sub :
  kw_get (upd_kwargs u) "input_mask" <> KNone ->
  Assigner_init u r sub = Err (TypeError InputMaskOnlyForExtract).
Proof.
  intros H. unfold Assigner_init.
  destruct (kw_get (upd_kwargs u) "input_mask"); [contradiction | reflexivity..].
Qed.

Lemma assigner_init_no_input_mask u r sub :
  kw_get (upd_kwargs u) "input_mask" = KNone ->
  Assigner_init u r sub = OK (mkAssigner u r sub).
Proof. intros H. unfold Assigner_init. now rewrite H. Qed.

Lemma run_ambiguous_call eng hist self args kwargs u :
  eng hist _ (parent_call (amb_parent self) args kwargs) = OK u ->
  run eng hist (Ambiguous___call__ self args kwargs)
  = (hist ++ [Ev (parent_call (amb_parent self) args kwargs)],
     match Assigner_init u (amb_resolved_indexes self)
                         (is_not_None (kw_get (upd_kwargs u) "mask")) with
     | OK a => Returned a
     | Err e => Raised e
     end).
Proof.
  intros H. unfold Ambiguous___call__. simpl. rewrite H.
  now destruct (Assigner_init _ _ _).
Qed.

(** C6: when the Updater carries an [input_mask] that is not None, building
    the Assigner raises the TypeError "`input_mask` argument may only be
    used for extract" -- from [Assigner.__init__] itself, from
    [C(params)[index]] once the index is resolved, and from
    [C[index](params)] right after the container's call returned the
    Updater -- whether or not a [mask] was supplied as well. *)
Theorem assigner_rejects_input_mask u r sub :
  kw_get (upd_kwargs u) "input_mask" <> KNone ->
  Assigner_init u r sub = Err (TypeError InputMaskOnlyForExtract)
  /\ (forall keys,
        _is_scalar (upd_parent u) = false ->
        IndexerResolver_init (upd_parent u) keys = OK r ->
        Updater___getitem__ u keys = Err (TypeError InputMaskOnlyForExtract))
  /\ (forall eng hist self args kwargs,
        eng hist _ (parent_call (amb_parent self) args kwargs) = OK u ->
        run eng hist (Ambiguous___call__ self args kwargs)
        = (hist ++ [Ev (parent_call (amb_parent self) args kwargs)],
           Raised (TypeError InputMaskOnlyForExtract))).
Proof.
  intros H. split; [now apply assigner_init_input_mask|]. split.
  - intros keys Hs Hr. unfold Updater___getitem__. rewrite Hs, Hr. simpl.
    now apply assigner_init_input_mask.
  - intros eng hist self args kwargs Hu.
    rewrite (run_ambiguous_call _ _ _ _ _ _ Hu).
    now rewrite assigner_init_input_mask.
Qed.

Lemma assigner_rejects_input_mask_witness :
  let A := Matrix "A" 3 4 in
  let M := KMask (mkMask "StructuralMask" (Matrix "M" 3 4)) in
  let kw : gmap string kwval := <["mask" := M]> {["input_mask" := M]} in
  let r := mkResolver A [(_CScalar 1, None); (_ALL_INDICES, Some (_CScalar 4))] in
  Assigner_init (mkUpdater A kw) r true = Err (TypeError InputMaskOnlyForExtract)
  /\ Updater___getitem__ (mkUpdater A kw)
       (RTuple [RObj (IInt 1); RObj (ISlice (Slice None None None))])
     = Err (TypeError InputMaskOnlyForExtract)
  /\ run example_engine [] (Ambiguous___call__ (mkAmbiguous A r) [] kw)
     = ([Ev (parent_call A [] kw)], Raised (TypeError InputMaskOnlyForExtract)).
Proof.
  intros A M kw r.
  assert (H : kw_get (upd_kwargs (mkUpdater A kw)) "input_mask" <> KNone)
    by (vm_compute; discriminate).
  split; [|split].
  - exact (proj1 (assigner_rejects_input_mask (mkUpdater A kw) r true H)).
  - exact (proj1 (proj2 (assigner_rejects_input_mask (mkUpdater A kw) r false H))
             (RTuple [RObj (IInt 1); RObj (ISlice (Slice None None None))])
             eq_refl eq_refl).
  - exact (proj2 (proj2 (assigner_rejects_input_mask (mkUpdater A kw) r true H))
             example_engine [] (mkAmbiguous A r) [] kw eq_refl).
Defined.

Lemma run_ambiguous_call_failed eng hist self args kwargs e :
  eng hist _ (parent_call (amb_parent self) args kwargs) = Err e ->
  run eng hist (Ambiguous___call__ self args kwargs)
  = (hist ++ [Ev (parent_call (amb_parent self) args kwargs)], Failed e).
Proof. intros H. unfold Ambiguous___call__. simpl. now rewrite H. Qed.

(** C10, as stated, fails: where the transposed view cannot be called, the
    parameterized path [C[index](params) << v] ends with the error of that
    call; the commit routine is not reached and no commit primitive is
    called. *)
Lemma parameterized_path_stops_at_uncallable_view :
  let T := TransposedMatrix "A.T" 4 3 in
  let r := mkResolver T [(_CScalar 1, None); (_ALL_INDICES, Some (_CScalar 3))] in
  let kw : gmap string kwval := {["accum" := KObj (PyObj "plus")]} in
  run uncallable_view_engine []
    (a ← Ambiguous___call__ (mkAmbiguous T r) [] kw; Assigner___lshift__ a (PyObj "1"))
  = ([Ev (parent_call T [] kw)],
     Failed (TypeError (Text "'TransposedMatrix' object is not callable"))).
Proof. reflexivity. Qed.

(** C10, amended: on a transposed view the direct path ([C[index] << v],
    [C[index].update(v)]) raises the TypeError "'TransposedMatrix' object
    does not support item assignment" with no call into the engine.  The
    parameterized path [C[index](params) << v] makes no such check in this
    layer and never raises that error; what it does is decided by the
    container's own call: if the call fails, its error is the outcome and
    nothing else is called; if it returns an Updater carrying an
    [input_mask], building the Assigner raises; and if it returns an
    Updater without [input_mask], [Updater._setitem] runs, calls
    [_assign_element] or [_prep_for_assign] and raises nothing itself. *)
Theorem transposed_guard_only_on_direct_path eng hist self v :
  _is_transposed (amb_parent self) = true ->
  run eng hist (Ambiguous_update self v)
  = (hist, Raised (TypeError TransposedNoItemAssignment))
  /\ run eng hist (Ambiguous___lshift__ self v)
     = (hist, Raised (TypeError TransposedNoItemAssignment))
  /\ (forall args kwargs,
        let c := parent_call (amb_parent self) args kwargs in
        let lshift := a ← Ambiguous___call__ self args kwargs; Assigner___lshift__ a v in
        let update := a ← Ambiguous___call__ self args kwargs; Assigner_update a v in
        (forall tr, run eng hist lshift
                    <> (tr, Raised (TypeError TransposedNoItemAssignment)))
        /\ (forall tr, run eng hist update
                       <> (tr, Raised (TypeError TransposedNoItemAssignment)))
        /\ (forall e,
              eng hist _ c = Err e ->
              run eng hist lshift = (hist ++ [Ev c], Failed e)
              /\ run eng hist update = (hist ++ [Ev c], Failed e))
        /\ (forall u,
              eng hist _ c = OK u ->
              kw_get (upd_kwargs u) "input_mask" <> KNone ->
              run eng hist lshift
              = (hist ++ [Ev c], Raised (TypeError InputMaskOnlyForExtract))
              /\ run eng hist update
                 = (hist ++ [Ev c], Raised (TypeError InputMaskOnlyForExtract)))
        /\ (forall u,
              eng hist _ c = OK u ->
              kw_get (upd_kwargs u) "input_mask" = KNone ->
              run eng hist lshift
              = run eng (hist ++ [Ev c])
                  (Updater__setitem u (amb_resolved_indexes self) v
                     (is_not_None (kw_get (upd_kwargs u) "mask")))
              /\ run eng hist update
                 = run eng (hist ++ [Ev c])
                     (Updater__setitem u (amb_resolved_indexes self) v
                        (is_not_None (kw_get (upd_kwargs u) "mask")))
              /\ exists c' evs o,
                   run eng (hist ++ [Ev c])
                     (Updater__setitem u (amb_resolved_indexes self) v
                        (is_not_None (kw_get (upd_kwargs u) "mask")))
                   = ((hist ++ [Ev c]) ++ c' :: evs, o)
                   /\ is_Raised o = false
                   /\ (c' = Ev (_assign_element (upd_parent u)
                                   (amb_resolved_indexes self) v)
                       \/ c' = Ev (_prep_for_assign (upd_parent u)
                                     (amb_resolved_indexes self) v
                                     (kw_get (upd_kwargs u) "mask")
                                     (is_not_None (kw_get (upd_kwargs u) "mask")))))).
Proof.
  intros Ht. unfold Ambiguous___lshift__, Ambiguous_update. rewrite Ht.
  split; [reflexivity|]. split; [reflexivity|].
  intros args kwargs.
  set (c := parent_call (amb_parent self) args kwargs).
  assert (Hfail : forall e, eng hist _ c = Err e ->
            run eng hist (Ambiguous___call__ self args kwargs)
            = (hist ++ [Ev c], Failed e))
    by (intros e; apply run_ambiguous_call_failed).
  assert (Hmask : forall u, eng hist _ c = OK u ->
            kw_get (upd_kwargs u) "input_mask" <> KNone ->
            run eng hist (Ambiguous___call__ self args kwargs)
            = (hist ++ [Ev c], Raised (TypeError InputMaskOnlyForExtract))).
  { intros u Hu Hm. rewrite (run_ambiguous_call _ _ _ _ _ _ Hu).
    now rewrite assigner_init_input_mask. }
  assert (Hok : forall u, eng hist _ c = OK u ->
            kw_get (upd_kwargs u) "input_mask" = KNone ->
            run eng hist (Ambiguous___call__ self args kwargs)
            = (hist ++ [Ev c],
               Returned (mkAssigner u (amb_resolved_indexes self)
                           (is_not_None (kw_get (upd_kwargs u) "mask"))))).
  { intros u Hu Hm. rewrite (run_ambiguous_call _ _ _ _ _ _ Hu).
    now rewrite (assigner_init_no_input_mask _ _ _ Hm). }
  assert (Hnever : forall (k : Assigner -> prog unit),
            (forall a, k a = Updater__setitem (asg_updater a) (asg_resolved_indexes a) v
                               (asg_is_submask a)) ->
            forall tr, run eng hist (Ambiguous___call__ self args kwargs ≫= k)
                       <> (tr, Raised (TypeError TransposedNoItemAssignment))).
  { intros k Hk tr. rewrite run_bind.
    destruct (eng hist _ c) as [u|e] eqn:Hu.
    - destruct (kw_get (upd_kwargs u) "input_mask") eqn:Hm.
      + rewrite (Hok u eq_refl Hm), Hk. apply setitem_never_raises.
      + rewrite (Hmask u eq_refl); [discriminate | now rewrite Hm].
      + rewrite (Hmask u eq_refl); [discriminate | now rewrite Hm].
    - rewrite (Hfail e eq_refl). discriminate. }
  cbv zeta.
  split; [now apply Hnever|]. split; [now apply Hnever|].
  split; [|split].
  - intros e He. now rewrite !run_bind, (Hfail e He).
  - intros u Hu Hm. now rewrite !run_bind, (Hmask u Hu Hm).
  - intros u Hu Hm. rewrite !run_bind, (Hok u Hu Hm).
    split; [reflexivity|]. split; [reflexivity|]. apply setitem_calls.
Qed.

Lemma transposed_guard_only_on_direct_path_witness :
  let T := TransposedMatrix "A.T" 4 3 in
  let r := mkResolver T [(_CScalar 1, None); (_ALL_INDICES, Some (_CScalar 3))] in
  let kw : gmap string kwval := {["accum" := KObj (PyObj "plus")]} in
  run example_engine [] (Ambiguous___lshift__ (mkAmbiguous T r) (PyObj "1"))
  = ([], Raised (TypeError TransposedNoItemAssignment))
  /\ run uncallable_view_engine []
       (a ← Ambiguous___call__ (mkAmbiguous T r) [] kw; Assigner___lshift__ a (PyObj "1"))
     = ([Ev (parent_call T [] kw)],
        Failed (TypeError (Text "'TransposedMatrix' object is not callable")))
  /\ run example_engine []
       (a ← Ambiguous___call__ (mkAmbiguous T r) [] kw; Assigner___lshift__ a (PyObj "1"))
     = ([Ev (parent_call T [] kw);
         Ev (_prep_for_assign T r (PyObj "1") KNone false);
         Ev (_update T (Expression "assign") kw)], Returned tt).
Proof.
  intros T r kw. split; [|split].
  - exact (proj1 (proj2 (transposed_guard_only_on_direct_path example_engine []
                           (mkAmbiguous T r) (PyObj "1") eq_refl))).
  - destruct (proj2 (proj2 (transposed_guard_only_on_direct_path
                uncallable_view_engine [] (mkAmbiguous T r) (PyObj "1") eq_refl)) [] kw)
      as (_ & _ & F & _ & _).
    exact (proj1 (F _ eq_refl)).
  - destruct (proj2 (proj2 (transposed_guard_only_on_direct_path
                example_engine [] (mkAmbiguous T r) (PyObj "1") eq_refl)) [] kw)
      as (_ & _ & _ & _ & K).
    exact (proj1 (K (mkUpdater T kw) eq_refl eq_refl)).
Defined.

End Staging.

(** ** Integer and slice indices *)

Section IntegerAndSlice.

Implicit Types (size : Z) (s : slice).

Lemma parse_index_wrapped_total (index : index_obj) size :
  parse_index_wrapped (fun v => OK (_CScalar v)) (fun l => OK (_CArray l)) index size
  = parse_index index size.
Proof.
  destruct index as [i|s|a|l|[items|]]; simpl;
    repeat match goal with
           | |- context [if ?b then _ else _] => destruct b
           | |- context [range_getslice ?n ?x] => destruct (range_getslice n x); simpl
           end;
    reflexivity.
Qed.

(** Whatever the wrappers refuse, a resolution that succeeds is the one
    [parse_index] describes, and an error of [parse_index] is raised before
    any wrapper is built. *)
Lemma parse_index_wrapped_sound (new_CScalar : Z -> result carg)
    (new_CArray : list Z -> result carg) (index : index_obj) size :
  (forall v c, new_CScalar v = OK c -> c = _CScalar v) ->
  (forall l c, new_CArray l = OK c -> c = _CArray l) ->
  (forall spec, parse_index_wrapped new_CScalar new_CArray index size = OK spec ->
                parse_index index size = OK spec)
  /\ (forall e, parse_index index size = Err e ->
                parse_index_wrapped new_CScalar new_CArray index size = Err e).
Proof.
  intros Hs Ha. split.
  - intros spec.
    destruct index as [i|s|a|l|[items|]]; simpl;
      repeat match goal with
             | |- context [if ?b then _ else _] => destruct b
             | |- context [range_getslice ?n ?x] => destruct (range_getslice n x); simpl
             end;
      try discriminate;
      intros H;
      repeat match type of H with
             | rbind _ _ = OK _ =>
                 let c := fresh "c" in
                 let Hc := fresh "Hc" in
                 apply rbind_OK in H as (c & Hc & H);
                 first [apply Hs in Hc | apply Ha in Hc]; subst c
             end;
      exact H.
  - intros e.
    destruct index as [i|s|a|l|[items|]]; simpl;
      repeat match goal with
             | |- context [if ?b then _ else _] => destruct b
             | |- context [range_getslice ?n ?x] => destruct (range_getslice n x); simpl
             end;
      try discriminate; intros [= <-]; reflexivity.
Qed.

(** An integer index passes through the bounds check exactly when it is
    below the size; it is then handed to the scalar wrapper, whose outcome
    is the outcome of the resolution. *)
Lemma parse_index_wrapped_int (new_CScalar : Z -> result carg)
    (new_CArray : list Z -> result carg) (i : Z) size :
  parse_index_wrapped new_CScalar new_CArray (IInt i) size
  = if size <=? i then Err (IndexError (IndexOutOfRange i size))
    else scalar <-? new_CScalar i; OK (scalar, None).
Proof. reflexivity. Qed.

(** With wrappers for unsigned 64-bit values, an integer index on a
    dimension of a size that such a wrapper can hold is resolved exactly
    when it lies in [0, size). *)
Lemma parse_index_uint64_int_resolves (i : Z) size :
  size <= 2 ^ 64 ->
  (exists spec, parse_index_wrapped uint64_CScalar uint64_CArray (IInt i) size = OK spec)
  <-> 0 <= i < size.
Proof.
  intros Hsize. rewrite parse_index_wrapped_int. unfold uint64_CScalar, in_uint64.
  destruct (Z.leb_spec size i).
  - split; [intros [spec H']; discriminate | lia].
  - destruct (Z.leb_spec 0 i); destruct (Z.ltb_spec i (2 ^ 64)); simpl;
      (split; [intros [spec H']; try discriminate H'; lia | intros; try lia; eauto]).
Qed.

(** C3: the bounds check of an integer index tests [index >= size] only.
    The index -1 on a dimension of size 5 passes it and is handed to the
    scalar wrapper, so the outcome is the wrapper's, whatever the wrapper
    is: with a wrapper for unsigned 64-bit values it is an OverflowError,
    where an index at or beyond the size gets the IndexError of the bounds
    check. *)
Theorem negative_index_reaches_the_wrapper :
  (forall new_CScalar new_CArray,
      parse_index_wrapped new_CScalar new_CArray (IInt (-1)) 5
      = (scalar <-? new_CScalar (-1); OK (scalar, None)))
  /\ parse_index_wrapped uint64_CScalar uint64_CArray (IInt (-1)) 5
     = Err (OtherError "OverflowError" (Text "can't convert to unsigned 64-bit integer"))
  /\ parse_index_wrapped uint64_CScalar uint64_CArray (IInt 5) 5
     = Err (IndexError (IndexOutOfRange 5 5)).
Proof. repeat split. Qed.

Lemma slice_eqb_eq (a b : slice) : slice_eqb a b = true <-> a = b.
Proof.
  unfold slice_eqb. rewrite !andb_true_iff, !bool_decide_eq_true.
  destruct a, b; simpl. split.
  - now intros [[-> ->] ->].
  - now intros [= -> -> ->].
Qed.

Lemma is_all_slice_true s :
  is_all_slice s = true <-> s = Slice None None None \/ s = Slice (Some 0) None None.
Proof. unfold is_all_slice. now rewrite orb_true_iff, !slice_eqb_eq. Qed.

Lemma is_all_slice_false s :
  s <> Slice None None None -> s <> Slice (Some 0) None None -> is_all_slice s = false.
Proof.
  intros H1 H2. apply not_true_is_false. rewrite is_all_slice_true. tauto.
Qed.

Lemma parse_index_slice_unfold size s :
  parse_index (ISlice s) size =
    if is_all_slice s then OK (_ALL_INDICES, Some (_CScalar size))
    else items <-? range_getslice size s;
         OK (_CArray items, Some (_CScalar (len_Z items))).
Proof. reflexivity. Qed.

(** Every other spelling of the whole range is materialised. *)
Example parse_index_slice_step_one :
  parse_index (ISlice (Slice None None (Some 1))) 5
  = OK (_CArray [0; 1; 2; 3; 4], Some (_CScalar 5)).
Proof. reflexivity. Qed.

(** C7, as stated, fails: [0:] is a slice other than [:], and it is not
    expanded into an explicit sequence but resolved to the ALL marker. *)
Lemma slice_from_zero_not_expanded :
  Slice (Some 0) None None <> Slice None None None
  /\ parse_index (ISlice (Slice (Some 0) None None)) 5
     = OK (_ALL_INDICES, Some (_CScalar 5))
  /\ ~ (exists items count,
          parse_index (ISlice (Slice (Some 0) None None)) 5 = OK (_CArray items, count)).
Proof.
  split; [discriminate|]. split; [reflexivity|].
  intros (items & count & H). discriminate H.
Qed.

(** C7, amended: on a dimension of size [size], the slices [:] and [0:]
    resolve to the ALL marker paired with [size], with no index list; every
    other slice with a non-zero step is expanded by [range(size)[slice]]
    into an explicit sequence paired with its length, whose elements lie in
    [0, size) and advance by the step; a zero step raises ValueError. *)
Theorem parse_index_slice size s :
  0 <= size ->
  (s = Slice None None None \/ s = Slice (Some 0) None None ->
   parse_index (ISlice s) size = OK (_ALL_INDICES, Some (_CScalar size)))
  /\ (s <> Slice None None None -> s <> Slice (Some 0) None None ->
      slice_step s <> 0 ->
      exists items,
        parse_index (ISlice s) size = OK (_CArray items, Some (_CScalar (len_Z items)))
        /\ range_getslice size s = OK items
        /\ (forall (k : nat) x, items !! k = Some x -> 0 <= x < size)
        /\ (forall (k : nat) x y,
              items !! k = Some x -> items !! S k = Some y -> y = x + slice_step s))
  /\ (s <> Slice None None None -> s <> Slice (Some 0) None None ->
      slice_step s = 0 ->
      parse_index (ISlice s) size = Err (ValueError SliceStepZero)).
Proof.
  intros Hsize. rewrite parse_index_slice_unfold. split; [|split].
  - intros H. apply is_all_slice_true in H. now rewrite H.
  - intros H1 H2 Hstep. rewrite (is_all_slice_false s H1 H2).
    destruct (range_getslice_spec size s Hsize Hstep) as (items & -> & Hin & Hadv).
    exists items. simpl. auto.
  - intros H1 H2 Hstep. rewrite (is_all_slice_false s H1 H2).
    unfold range_getslice. fold (slice_step s). now rewrite Hstep.
Qed.

Lemma parse_index_slice_witness :
  parse_index (ISlice (Slice None None None)) 5 = OK (_ALL_INDICES, Some (_CScalar 5))
  /\ (exists items,
        parse_index (ISlice (Slice (Some 4) None (Some (-2)))) 5
        = OK (_CArray items, Some (_CScalar (len_Z items)))
        /\ range_getslice 5 (Slice (Some 4) None (Some (-2))) = OK items
        /\ (forall (k : nat) x, items !! k = Some x -> 0 <= x < 5)
        /\ (forall (k : nat) x y,
              items !! k = Some x -> items !! S k = Some y -> y = x + -2))
  /\ parse_index (ISlice (Slice None None (Some 0))) 5 = Err (ValueError SliceStepZero).
Proof.
  assert (H5 : 0 <= 5) by lia.
  split; [|split].
  - apply (proj1 (parse_index_slice 5 (Slice None None None) H5)). now left.
  - apply (proj1 (proj2 (parse_index_slice 5 (Slice (Some 4) None (Some (-2))) H5)));
      discriminate.
  - apply (proj2 (proj2 (parse_index_slice 5 (Slice None None (Some 0)) H5)));
      [discriminate | discriminate | reflexivity].
Defined.

End IntegerAndSlice.

(** ** Extraction under an input mask *)

Section InputMask.

Implicit Types (eng : engine) (hist : list event) (self : AmbiguousAssignOrExtract)
  (M : Mask) (dtype name : option string).

Lemma run_project_mask eng hist M proj :
  run eng hist (project_mask M proj) =
    let c := _prep_for_extract (mask M) proj in
    match eng hist _ c with
    | Err e => (hist ++ [Ev c], Failed e)
    | OK mask_expr =>
        let c' := expr_new mask_expr None None (Some "mask_temp") in
        (hist ++ [Ev c; Ev c'],
         match eng (hist ++ [Ev c]) _ c' with
         | OK mask_value => Returned (mkMask (mask_class M) mask_value)
         | Err e => Failed e
         end)
    end.
Proof.
  unfold project_mask, finish_mask. simpl.
  destruct (eng hist expression _) as [me|e]; [|reflexivity].
  simpl. rewrite <- app_assoc. simpl.
  destruct (eng _ container _); reflexivity.
Qed.

(** Projecting a mask raises nothing in this layer, and starts by
    extracting from the mask's container. *)
Lemma extract_with_mask_not_raised eng hist self M proj dtype name :
  is_Raised (snd (run eng hist (extract_with_mask self M proj dtype name))) = false.
Proof.
  unfold extract_with_mask. rewrite run_bind, run_project_mask. simpl.
  destruct (eng hist expression _) as [me|e]; [|reflexivity].
  destruct (eng (hist ++ _) container _) as [mv|e]; [|reflexivity].
  simpl.
  destruct (eng _ expression _) as [de|e]; [|reflexivity].
  simpl. destruct (eng _ container _); reflexivity.
Qed.

(** [new(input_mask=M)] on a multi-element index, once [_check_mask] has
    passed, continues with the translation of the mask. *)
Lemma run_new_input_mask eng hist self M dtype name :
  is_single_element (amb_resolved_indexes self) = false ->
  eng hist _ (_check_mask M (amb_parent self)) = OK tt ->
  run eng hist (Ambiguous_new self dtype None (Some M) name) =
    match run eng (hist ++ [Ev (_check_mask M (amb_parent self))])
              (_input_mask_to_mask self M) with
    | (h, Returned derived) =>
        run eng h
          (delayed ← call (_prep_for_extract (amb_parent self)
                                             (amb_resolved_indexes self));
           call (expr_new delayed dtype (Some derived) name))
    | (h, Raised e) => (h, Raised e)
    | (h, Failed e) => (h, Failed e)
    end.
Proof.
  intros Hm Hc. unfold Ambiguous_new. rewrite Hm. cbn [given].
  rewrite run_bind.
  change (run eng hist (_ ← call (_check_mask M (amb_parent self));
                        derived ← _input_mask_to_mask self M; mret (Some derived)))
    with (match eng hist _ (_check_mask M (amb_parent self)) with
          | OK r => run eng (hist ++ [Ev (_check_mask M (amb_parent self))])
                      (derived ← _input_mask_to_mask self M; mret (Some derived))
          | Err e => (hist ++ [Ev (_check_mask M (amb_parent self))], Failed e)
          end).
  rewrite Hc, run_bind.
  destruct (run eng _ (_input_mask_to_mask self M)) as [h [d|e|e]]; reflexivity.
Qed.

Lemma run_new_projected eng hist self M proj dtype name :
  is_single_element (amb_resolved_indexes self) = false ->
  eng hist _ (_check_mask M (amb_parent self)) = OK tt ->
  _input_mask_to_mask self M = project_mask M proj ->
  run eng hist (Ambiguous_new self dtype None (Some M) name)
  = run eng (hist ++ [Ev (_check_mask M (amb_parent self))])
        (extract_with_mask self M proj dtype name).
Proof.
  intros Hm Hc Hp. rewrite (run_new_input_mask _ _ _ _ _ _ Hm Hc), Hp.
  unfold extract_with_mask. rewrite run_bind.
  destruct (run eng _ (project_mask M proj)) as [h [d|e|e]]; reflexivity.
Qed.

Lemma run_new_raised eng hist self M dtype name e :
  is_single_element (amb_resolved_indexes self) = false ->
  eng hist _ (_check_mask M (amb_parent self)) = OK tt ->
  _input_mask_to_mask self M = Raise e ->
  run eng hist (Ambiguous_new self dtype None (Some M) name)
  = (hist ++ [Ev (_check_mask M (amb_parent self))], Raised e).
Proof.
  intros Hm Hc Hp. now rewrite (run_new_input_mask _ _ _ _ _ _ Hm Hc), Hp.
Qed.

End InputMask.

Section InputMaskTranslation.

Implicit Types (eng : engine) (hist : list event) (self : AmbiguousAssignOrExtract)
  (M : Mask) (dtype name : option string) (rowsize colsize : option carg).

(** A Vector mask against a two-dimensional parent. *)
Lemma input_mask_vector_on_matrix self M mname msize nr nc ri rowsize ci colsize :
  is_matrix_like (type_of (amb_parent self)) = true ->
  shape (amb_parent self) = [nr; nc] ->
  mask M = Vector mname msize ->
  indices (amb_resolved_indexes self) = [(ri, rowsize); (ci, colsize)] ->
  _input_mask_to_mask self M =
    match rowsize, colsize with
    | None, _ =>
        if nc =? msize
        then project_mask M (mkResolver (obj (amb_resolved_indexes self)) [(ci, colsize)])
        else Raise (ValueError (MaskSizeMismatch "ncols" (name_of (amb_parent self))
                                                 mname nc msize))
    | Some _, None =>
        if nr =? msize
        then project_mask M (mkResolver (obj (amb_resolved_indexes self)) [(ri, rowsize)])
        else Raise (ValueError (MaskSizeMismatch "nrows" (name_of (amb_parent self))
                                                 mname nr msize))
    | Some _, Some _ => Raise (TypeError VectorMaskForSubmatrix)
    end.
Proof.
  intros HP Hshape HM Hr. unfold _input_mask_to_mask, project_mask, get_index.
  rewrite HM, Hr.
  destruct (amb_parent self) as [n|n k|n a b|n a b]; try discriminate HP;
    injection Hshape as -> ->;
    destruct rowsize, colsize; cbn;
    try destruct (nr =? msize); try destruct (nc =? msize); reflexivity.
Qed.

(** A mask of the parent's own dimensionality. *)
Lemma input_mask_same_dimension self M :
  (type_of (mask M) = TVector /\ type_of (amb_parent self) = TVector)
  \/ (is_matrix_like (type_of (mask M)) = true
      /\ is_matrix_like (type_of (amb_parent self)) = true) ->
  (shape (mask M) = shape (amb_parent self) ->
   _input_mask_to_mask self M = project_mask M (amb_resolved_indexes self))
  /\ (shape (mask M) <> shape (amb_parent self) ->
      exists msg,
        _input_mask_to_mask self M = Raise (ValueError msg)
        /\ (msg = MaskShapeMismatch "shape" (name_of (amb_parent self)) (name_of (mask M))
                    (shape (amb_parent self)) (shape (mask M))
            \/ exists n n', shape (amb_parent self) = [n] /\ shape (mask M) = [n']
                 /\ msg = MaskSizeMismatch "size" (name_of (amb_parent self))
                            (name_of (mask M)) n n')).
Proof.
  intros Hdim. unfold _input_mask_to_mask.
  assert (Hb : pytype_eqb (type_of (mask M)) TVector
               && negb (pytype_eqb (type_of (amb_parent self)) TVector) = false).
  { destruct Hdim as [[H1 H2]|[H1 H2]].
    - now rewrite H1, H2.
    - destruct (mask M); try discriminate H1; reflexivity. }
  rewrite Hb. split.
  - intros Hs. now rewrite bool_decide_true.
  - intros Hs. rewrite bool_decide_false by assumption. cbn [negb].
    destruct Hdim as [[H1 H2]|[H1 H2]].
    + rewrite H2. cbn.
      destruct (mask M) as [|mn n'| |]; try discriminate H1.
      destruct (amb_parent self) as [|pn n| |]; try discriminate H2.
      cbn. eexists; split; [reflexivity|]. right. now exists n, n'.
    + destruct (amb_parent self); try discriminate H2;
        cbn; eexists; (split; [reflexivity|]); now left.
Qed.

(** C2: [C[index].new(input_mask=M)] with a Vector mask [M] on a Matrix or
    transposed Matrix, once the external [_check_mask] has passed.  If both
    resolved dimensions are plain integers the call raises TypeError (masks
    are not allowed for a single element); if neither is, it raises
    TypeError (a Vector mask needs a single row or column).  If exactly one
    is, [M]'s size is compared with the size of the other dimension of the
    parent: when they differ the call raises ValueError carrying both
    sizes, and when they agree the extraction proceeds under [M] projected
    through the index of that other dimension.  A mask of the parent's own
    dimensionality is projected through the whole resolved index when the
    shapes are equal, and raises ValueError carrying both shapes when they
    differ. *)
Theorem input_mask_translation :
  (forall eng hist self M dtype name mname msize nr nc ri rowsize ci colsize,
      is_matrix_like (type_of (amb_parent self)) = true ->
      shape (amb_parent self) = [nr; nc] ->
      mask M = Vector mname msize ->
      indices (amb_resolved_indexes self) = [(ri, rowsize); (ci, colsize)] ->
      eng hist _ (_check_mask M (amb_parent self)) = OK tt ->
      match rowsize, colsize with
      | None, None =>
          run eng hist (Ambiguous_new self dtype None (Some M) name)
          = (hist, Raised (TypeError MaskNotAllowedSingleElement))
      | None, Some _ =>
          (nc = msize ->
           run eng hist (Ambiguous_new self dtype None (Some M) name)
           = run eng (hist ++ [Ev (_check_mask M (amb_parent self))])
               (extract_with_mask self M
                  (mkResolver (obj (amb_resolved_indexes self)) [(ci, colsize)])
                  dtype name))
          /\ (nc <> msize ->
              run eng hist (Ambiguous_new self dtype None (Some M) name)
              = (hist ++ [Ev (_check_mask M (amb_parent self))],
                 Raised (ValueError (MaskSizeMismatch "ncols" (name_of (amb_parent self))
                                                      mname nc msize))))
      | Some _, None =>
          (nr = msize ->
           run eng hist (Ambiguous_new self dtype None (Some M) name)
           = run eng (hist ++ [Ev (_check_mask M (amb_parent self))])
               (extract_with_mask self M
                  (mkResolver (obj (amb_resolved_indexes self)) [(ri, rowsize)])
                  dtype name))
          /\ (nr <> msize ->
              run eng hist (Ambiguous_new self dtype None (Some M) name)
              = (hist ++ [Ev (_check_mask M (amb_parent self))],
                 Raised (ValueError (MaskSizeMismatch "nrows" (name_of (amb_parent self))
                                                      mname nr msize))))
      | Some _, Some _ =>
          run eng hist (Ambiguous_new self dtype None (Some M) name)
          = (hist ++ [Ev (_check_mask M (amb_parent self))],
             Raised (TypeError VectorMaskForSubmatrix))
      end)
  /\ (forall eng hist self M dtype name,
        is_single_element (amb_resolved_indexes self) = false ->
        eng hist _ (_check_mask M (amb_parent self)) = OK tt ->
        (type_of (mask M) = TVector /\ type_of (amb_parent self) = TVector)
        \/ (is_matrix_like (type_of (mask M)) = true
            /\ is_matrix_like (type_of (amb_parent self)) = true) ->
        (shape (mask M) = shape (amb_parent self) ->
         run eng hist (Ambiguous_new self dtype None (Some M) name)
         = run eng (hist ++ [Ev (_check_mask M (amb_parent self))])
             (extract_with_mask self M (amb_resolved_indexes self) dtype name))
        /\ (shape (mask M) <> shape (amb_parent self) ->
            exists msg,
              run eng hist (Ambiguous_new self dtype None (Some M) name)
              = (hist ++ [Ev (_check_mask M (amb_parent self))],
                 Raised (ValueError msg))
              /\ (msg = MaskShapeMismatch "shape" (name_of (amb_parent self))
                          (name_of (mask M)) (shape (amb_parent self)) (shape (mask M))
                  \/ exists n n',
                       shape (amb_parent self) = [n] /\ shape (mask M) = [n']
                       /\ msg = MaskSizeMismatch "size" (name_of (amb_parent self))
                                  (name_of (mask M)) n n'))).
Proof.
  split.
  - intros eng hist self M dtype name mname msize nr nc ri rowsize ci colsize
           HP Hshape HM Hr Hc.
    pose proof (input_mask_vector_on_matrix self M mname msize nr nc ri rowsize
                  ci colsize HP Hshape HM Hr) as Hm.
    assert (Hs : is_single_element (amb_resolved_indexes self)
                 = negb (given rowsize) && negb (given colsize)).
    { unfold is_single_element. rewrite Hr. cbn. destruct rowsize, colsize; reflexivity. }
    destruct rowsize as [rs|], colsize as [cs|]; cbn in Hs.
    + now apply run_new_raised.
    + split; intros Hn.
      * apply run_new_projected; try assumption.
        rewrite Hm. now rewrite (proj2 (Z.eqb_eq nr msize) Hn).
      * apply run_new_raised; try assumption.
        rewrite Hm. now rewrite (proj2 (Z.eqb_neq nr msize) Hn).
    + split; intros Hn.
      * apply run_new_projected; try assumption.
        rewrite Hm. now rewrite (proj2 (Z.eqb_eq nc msize) Hn).
      * apply run_new_raised; try assumption.
        rewrite Hm. now rewrite (proj2 (Z.eqb_neq nc msize) Hn).
    + unfold Ambiguous_new. now rewrite Hs.
  - intros eng hist self M dtype name Hs Hc Hdim.
    destruct (input_mask_same_dimension self M Hdim) as [Heq Hne]. split.
    + intros H. apply run_new_projected; auto.
    + intros H. destruct (Hne H) as (msg & Hmsg & Hform).
      exists msg. split; [now apply run_new_raised | exact Hform].
Qed.

Lemma input_mask_translation_witness :
  let A := Matrix "A" 3 4 in
  let r := mkResolver A [(_CScalar 1, None); (_ALL_INDICES, Some (_CScalar 4))] in
  let proj := mkResolver A [(_ALL_INDICES, Some (_CScalar 4))] in
  let self := mkAmbiguous A r in
  let M := mkMask "StructuralMask" (Vector "m" 4) in
  let M' := mkMask "StructuralMask" (Vector "m" 3) in
  let M2 := mkMask "ValueMask" (Matrix "B" 3 4) in
  run example_engine [] (Ambiguous_new self None None (Some M) None)
  = ([Ev (_check_mask M A);
      Ev (_prep_for_extract (Vector "m" 4) proj);
      Ev (expr_new (Expression "extract") None None (Some "mask_temp"));
      Ev (_prep_for_extract A r);
      Ev (expr_new (Expression "extract") None
                   (Some (mkMask "StructuralMask" (Vector "mask_temp" 4))) None)],
     Returned (Vector "v_new" 4))
  /\ run example_engine [] (Ambiguous_new self None None (Some M') None)
     = ([Ev (_check_mask M' A)],
        Raised (ValueError (MaskSizeMismatch "ncols" "A" "m" 4 3)))
  /\ run example_engine [] (Ambiguous_new self None None (Some M2) None)
     = ([Ev (_check_mask M2 A);
         Ev (_prep_for_extract (Matrix "B" 3 4) r);
         Ev (expr_new (Expression "extract") None None (Some "mask_temp"));
         Ev (_prep_for_extract A r);
         Ev (expr_new (Expression "extract") None
                      (Some (mkMask "ValueMask" (Vector "mask_temp" 4))) None)],
        Returned (Vector "v_new" 4)).
Proof.
  intros A r proj self M M' M2. split; [|split].
  - exact (proj1 (proj1 input_mask_translation example_engine [] self M None None
                    "m" 4 3 4 (_CScalar 1) None _ALL_INDICES (Some (_CScalar 4))
                    eq_refl eq_refl eq_refl eq_refl eq_refl) eq_refl).
  - refine (proj2 (proj1 input_mask_translation example_engine [] self M' None None
                     "m" 3 3 4 (_CScalar 1) None _ALL_INDICES (Some (_CScalar 4))
                     eq_refl eq_refl eq_refl eq_refl eq_refl) _).
    discriminate.
  - refine (proj1 (proj2 input_mask_translation example_engine [] self M2 None None
                     eq_refl eq_refl _) eq_refl).
    right. split; reflexivity.
Defined.

End InputMaskTranslation.

(** ** Infix dispatch *)

Section InfixDispatch.

Implicit Types (eng : engine) (hist : list event) (left right : operand)
  (within method : string).

Ltac by_variants left right :=
  destruct left as [[]|], right as [[]|].

Lemma matmul_recognised eng hist left right within m :
  spec_matmul_method (type_of_operand left) (type_of_operand right) = Some m ->
  run eng hist (_matmul_infix_expr left right within) =
    let c := method_call left m right "any_pair[bool]" in
    (hist ++ [Ev c],
     match eng hist _ c with
     | OK (VectorExpression size) => Returned (VectorMatMulExpr left right m size)
     | OK (MatrixExpression nrows ncols) =>
         Returned (MatrixMatMulExpr left right nrows ncols)
     | Err e => Failed e
     end).
Proof.
  intros H.
  by_variants left right; cbn in H; try discriminate H; injection H as <-; cbn;
    destruct (eng hist probe _) as [[]|]; reflexivity.
Qed.

Lemma matmul_unrecognised eng hist left right within :
  spec_matmul_method (type_of_operand left) (type_of_operand right) = None ->
  exists msg, run eng hist (_matmul_infix_expr left right within)
              = (hist, Raised (TypeError msg)).
Proof.
  intros H.
  by_variants left right; cbn in H; try discriminate H; cbn; eauto.
Qed.

(** C4: multiply-infix dispatch.  A Vector by a Matrix or transposed
    Matrix probes [vxm] and, the probe being vector-valued, returns a
    vector-shaped node tagged [vxm]; a Matrix or transposed Matrix by a
    Vector likewise with [mxv]; two Matrix-like operands probe [mxm] and,
    the probe being matrix-valued, return the matrix-shaped node, whose tag
    is [mxm].  Every other pairing, Vector by Vector included, raises
    TypeError before anything is probed. *)
Theorem matmul_infix_dispatch eng hist left right within :
  (type_of_operand left = TVector ->
   is_matrix_like (type_of_operand right) = true ->
   forall size,
     eng hist _ (method_call left "vxm" right "any_pair[bool]")
     = OK (VectorExpression size) ->
     run eng hist (_matmul_infix_expr left right within)
     = (hist ++ [Ev (method_call left "vxm" right "any_pair[bool]")],
        Returned (VectorMatMulExpr left right "vxm" size)))
  /\ (is_matrix_like (type_of_operand left) = true ->
      type_of_operand right = TVector ->
      forall size,
        eng hist _ (method_call left "mxv" right "any_pair[bool]")
        = OK (VectorExpression size) ->
        run eng hist (_matmul_infix_expr left right within)
        = (hist ++ [Ev (method_call left "mxv" right "any_pair[bool]")],
           Returned (VectorMatMulExpr left right "mxv" size)))
  /\ (is_matrix_like (type_of_operand left) = true ->
      is_matrix_like (type_of_operand right) = true ->
      forall nrows ncols,
        eng hist _ (method_call left "mxm" right "any_pair[bool]")
        = OK (MatrixExpression nrows ncols) ->
        run eng hist (_matmul_infix_expr left right within)
        = (hist ++ [Ev (method_call left "mxm" right "any_pair[bool]")],
           Returned (MatrixMatMulExpr left right nrows ncols))
        /\ method_name (MatrixMatMulExpr left right nrows ncols) = "mxm")
  /\ (spec_matmul_method (type_of_operand left) (type_of_operand right) = None ->
      exists msg,
        run eng hist (_matmul_infix_expr left right within)
        = (hist, Raised (TypeError msg))).
Proof.
  split; [|split; [|split]].
  - intros Hl Hr size Hp.
    rewrite (matmul_recognised eng hist left right within "vxm").
    + cbn zeta. now rewrite Hp.
    + unfold spec_matmul_method. now rewrite Hl, Hr.
  - intros Hl Hr size Hp.
    rewrite (matmul_recognised eng hist left right within "mxv").
    + cbn zeta. now rewrite Hp.
    + unfold spec_matmul_method. rewrite Hl, Hr.
      destruct (type_of_operand left); try discriminate Hl; reflexivity.
  - intros Hl Hr nrows ncols Hp. split; [|reflexivity].
    rewrite (matmul_recognised eng hist left right within "mxm").
    + cbn zeta. now rewrite Hp.
    + unfold spec_matmul_method. rewrite Hl, Hr.
      destruct (type_of_operand left), (type_of_operand right);
        try discriminate Hl; try discriminate Hr; reflexivity.
  - apply matmul_unrecognised.
Qed.

Lemma matmul_infix_dispatch_witness :
  let v := Cont (Vector "v" 3) in
  let A := Cont (Matrix "A" 3 4) in
  let B := Cont (TransposedMatrix "B.T" 4 2) in
  let w := Cont (Vector "w" 4) in
  run example_engine [] (_matmul_infix_expr v A "__matmul__")
  = ([Ev (method_call v "vxm" A "any_pair[bool]")],
     Returned (VectorMatMulExpr v A "vxm" 4))
  /\ run example_engine [] (_matmul_infix_expr A w "__matmul__")
     = ([Ev (method_call A "mxv" w "any_pair[bool]")],
        Returned (VectorMatMulExpr A w "mxv" 3))
  /\ run example_engine [] (_matmul_infix_expr A B "__matmul__")
     = ([Ev (method_call A "mxm" B "any_pair[bool]")],
        Returned (MatrixMatMulExpr A B 3 2))
  /\ exists msg, run example_engine [] (_matmul_infix_expr v w "__matmul__")
                 = ([], Raised (TypeError msg)).
Proof.
  intros v A B w. split; [|split; [|split]].
  - exact (proj1 (matmul_infix_dispatch example_engine [] v A "__matmul__")
             eq_refl eq_refl 4 eq_refl).
  - exact (proj1 (proj2 (matmul_infix_dispatch example_engine [] A w "__matmul__"))
             eq_refl eq_refl 3 eq_refl).
  - exact (proj1 (proj1 (proj2 (proj2
             (matmul_infix_dispatch example_engine [] A B "__matmul__")))
             eq_refl eq_refl 3 2 eq_refl)).
  - exact (proj2 (proj2 (proj2
             (matmul_infix_dispatch example_engine [] v w "__matmul__"))) eq_refl).
Defined.

End InfixDispatch.

Section EwiseDispatch.

Implicit Types (eng : engine) (hist : list event) (left right : operand)
  (within method : string).

Ltac by_variants left right :=
  destruct left as [[]|], right as [[]|].

(** Which node a successful probe leads to. *)
Lemma ewise_compatible_run eng hist left right method within :
  spec_ewise_compatible (type_of_operand left) (type_of_operand right) = true ->
  run eng hist (_ewise_infix_expr left right method within) =
    let c := method_call left method right "any" in
    (hist ++ [Ev c],
     match eng hist _ c with
     | OK (VectorExpression _) =>
         match (if String.eqb method "ewise_mult"
                then VectorEwiseMultExpr_init left right
                else VectorEwiseAddExpr_init left right) with
         | OK node => Returned node
         | Err e => Raised e
         end
     | OK (MatrixExpression _ _) =>
         match (if String.eqb method "ewise_mult"
                then MatrixEwiseMultExpr_init left right
                else MatrixEwiseAddExpr_init left right) with
         | OK node => Returned node
         | Err e => Raised e
         end
     | Err e => Failed e
     end).
Proof.
  intros H.
  by_variants left right; cbn in H; try discriminate H; cbn;
    destruct (eng hist probe _) as [[]|]; try reflexivity;
    destruct (String.eqb method "ewise_mult"); reflexivity.
Qed.

Lemma ewise_incompatible_right eng hist left right method within :
  spec_ewise_compatible (type_of_operand left) (type_of_operand right) = false ->
  is_container_type (type_of_operand left) = true ->
  run eng hist (_ewise_infix_expr left right method within)
  = (hist, Raised (TypeError (ExpectType (type_of_operand right)
                      (if pytype_eqb (type_of_operand left) TVector
                       then [TVector] else [TMatrix; TTransposedMatrix])
                      within "right"))).
Proof.
  intros H Hl.
  by_variants left right; cbn in H; try discriminate H;
    cbn in Hl; try discriminate Hl; reflexivity.
Qed.

Lemma ewise_incompatible_left eng hist left right method within :
  is_container_type (type_of_operand left) = false ->
  is_container_type (type_of_operand right) = true ->
  run eng hist (_ewise_infix_expr left right method within)
  = (hist, Raised (TypeError (ExpectType (type_of_operand left)
                      (if pytype_eqb (type_of_operand right) TVector
                       then [TVector] else [TMatrix; TTransposedMatrix])
                      within "left"))).
Proof.
  intros Hl Hr.
  by_variants left right; cbn in Hl; try discriminate Hl;
    cbn in Hr; try discriminate Hr; reflexivity.
Qed.

Lemma ewise_no_container eng hist left right method within :
  is_container_type (type_of_operand left) = false ->
  is_container_type (type_of_operand right) = false ->
  run eng hist (_ewise_infix_expr left right method within)
  = (hist, Raised (TypeError (BadTypesEwise (type_name (type_of_operand left))
                                            (type_name (type_of_operand right))))).
Proof.
  intros Hl Hr.
  by_variants left right; cbn in Hl; try discriminate Hl;
    cbn in Hr; try discriminate Hr; reflexivity.
Qed.

(** C5, as stated, fails: a pairing of two operands that are no containers
    raises a TypeError that lists both types and names neither "left" nor
    "right". *)
Lemma ewise_bad_types_names_no_argument :
  _ewise_infix_expr (Foreign "int") (Foreign "int") "ewise_add" "__or__"
  = Raise (TypeError (BadTypesEwise "int" "int"))
  /\ spec_ewise_compatible (TOtherType "int") (TOtherType "int") = false
  /\ named_argument (TypeError (BadTypesEwise "int" "int")) = None.
Proof. repeat split. Qed.

(** C5, amended: Vector with Vector and Matrix-like with Matrix-like
    succeed: the variant check passes, the probe is called, and with the
    probe's answer (vector-valued for Vectors, matrix-valued for Matrix-like
    operands) the node over the two operands is returned; a failure of the
    probe is the failure of the dispatch.  Any other pairing raises
    TypeError before the probe: naming the other operand's argument when
    at least one operand is a Vector, Matrix or transposed Matrix ("right"
    when the left operand is such a container, "left" otherwise), and
    listing both operand types without naming an argument when neither
    is.  For two same-size Vectors the returned node's size is the operand
    size. *)
Theorem ewise_infix_dispatch eng hist left right method within :
  (spec_ewise_compatible (type_of_operand left) (type_of_operand right) = true ->
   (forall pr,
      eng hist _ (method_call left method right "any") = OK pr ->
      (match pr with VectorExpression _ => true | MatrixExpression _ _ => false end)
      = pytype_eqb (type_of_operand left) TVector ->
      exists node,
        run eng hist (_ewise_infix_expr left right method within)
        = (hist ++ [Ev (method_call left method right "any")], Returned node)
        /\ is_vector_expr node = pytype_eqb (type_of_operand left) TVector
        /\ expr_left node = left /\ expr_right node = right)
   /\ (forall e,
         eng hist _ (method_call left method right "any") = Err e ->
         run eng hist (_ewise_infix_expr left right method within)
         = (hist ++ [Ev (method_call left method right "any")], Failed e)))
  /\ (spec_ewise_compatible (type_of_operand left) (type_of_operand right) = false ->
      is_container_type (type_of_operand left)
      || is_container_type (type_of_operand right) = true ->
      exists e,
        run eng hist (_ewise_infix_expr left right method within) = (hist, Raised e)
        /\ (exists msg, e = TypeError msg)
        /\ named_argument e
           = Some (if is_container_type (type_of_operand left)
                   then "right" else "left"))
  /\ (is_container_type (type_of_operand left)
      || is_container_type (type_of_operand right) = false ->
      spec_ewise_compatible (type_of_operand left) (type_of_operand right) = false
      /\ run eng hist (_ewise_infix_expr left right method within)
         = (hist, Raised (TypeError (BadTypesEwise (type_name (type_of_operand left))
                                                   (type_name (type_of_operand right)))))
      /\ named_argument (TypeError (BadTypesEwise (type_name (type_of_operand left))
                                                  (type_name (type_of_operand right))))
         = None)
  /\ (forall lname rname n size,
        left = Cont (Vector lname n) -> right = Cont (Vector rname n) ->
        eng hist _ (method_call left method right "any") = OK (VectorExpression size) ->
        exists node,
          run eng hist (_ewise_infix_expr left right method within)
          = (hist ++ [Ev (method_call left method right "any")], Returned node)
          /\ is_vector_expr node = true
          /\ expr_size node = Some n
          /\ expr_left node = left /\ expr_right node = right).
Proof.
  split; [|split; [|split]].
  - intros Hc. rewrite (ewise_compatible_run _ _ _ _ _ _ Hc). cbn zeta. split.
    + intros pr Hp Hv. rewrite Hp.
      by_variants left right; cbn in Hc; try discriminate Hc;
        destruct pr; cbn in Hv; try discriminate Hv;
        destruct (String.eqb method "ewise_mult"); cbn; eexists; repeat split.
    + intros e He. now rewrite He.
  - intros Hc Hany.
    destruct (is_container_type (type_of_operand left)) eqn:Hl.
    + rewrite (ewise_incompatible_right _ _ _ _ _ _ Hc Hl).
      eexists; split; [reflexivity|]. split; [eauto | reflexivity].
    + cbn in Hany. rewrite (ewise_incompatible_left _ _ _ _ _ _ Hl Hany).
      eexists; split; [reflexivity|]. split; [eauto | reflexivity].
  - intros Hnone. apply orb_false_iff in Hnone as [Hl Hr].
    split; [|split; [now apply ewise_no_container | reflexivity]].
    by_variants left right; cbn in Hl; try discriminate Hl;
      cbn in Hr; try discriminate Hr; reflexivity.
  - intros lname rname n size -> -> Hp.
    rewrite ewise_compatible_run by reflexivity. cbn zeta. rewrite Hp.
    destruct (String.eqb method "ewise_mult"); cbn; eexists; repeat split.
Qed.

Lemma ewise_infix_dispatch_witness :
  let v := Cont (Vector "v" 3) in
  let w := Cont (Vector "w" 3) in
  let A := Cont (Matrix "A" 3 4) in
  let B := Cont (TransposedMatrix "B.T" 3 4) in
  (exists e,
     run example_engine [] (_ewise_infix_expr v A "ewise_add" "__or__") = ([], Raised e)
     /\ (exists msg, e = TypeError msg) /\ named_argument e = Some "right")
  /\ (exists e,
        run example_engine [] (_ewise_infix_expr (Foreign "int") A "ewise_mult" "__rand__")
        = ([], Raised e)
        /\ (exists msg, e = TypeError msg) /\ named_argument e = Some "left")
  /\ (exists node,
        run example_engine [] (_ewise_infix_expr v w "ewise_add" "__or__")
        = ([Ev (method_call v "ewise_add" w "any")], Returned node)
        /\ is_vector_expr node = true /\ expr_size node = Some 3
        /\ expr_left node = v /\ expr_right node = w)
  /\ (exists node,
        run example_engine [] (_ewise_infix_expr A B "ewise_mult" "__and__")
        = ([Ev (method_call A "ewise_mult" B "any")], Returned node)
        /\ is_vector_expr node = false /\ expr_left node = A /\ expr_right node = B)
  /\ run example_engine []
       (_ewise_infix_expr (Foreign "int") (Foreign "float") "ewise_add" "__or__")
     = ([], Raised (TypeError (BadTypesEwise "int" "float"))).
Proof.
  intros v w A B. split; [|split; [|split; [|split]]].
  - exact (proj1 (proj2 (ewise_infix_dispatch example_engine [] v A
                           "ewise_add" "__or__")) eq_refl eq_refl).
  - exact (proj1 (proj2 (ewise_infix_dispatch example_engine [] (Foreign "int") A
                           "ewise_mult" "__rand__")) eq_refl eq_refl).
  - exact (proj2 (proj2 (proj2 (ewise_infix_dispatch example_engine [] v w
                                  "ewise_add" "__or__")))
             "v" "w" 3 3 eq_refl eq_refl eq_refl).
  - exact (proj1 (proj1 (ewise_infix_dispatch example_engine [] A B
                           "ewise_mult" "__and__") eq_refl)
             (MatrixExpression 3 4) eq_refl eq_refl).
  - exact (proj1 (proj2 (proj1 (proj2 (proj2 (ewise_infix_dispatch example_engine []
             (Foreign "int") (Foreign "float") "ewise_add" "__or__"))) eq_refl))).
Defined.

End EwiseDispatch.

(** ** Further properties of index resolution *)

Section SingleElement.

Implicit Types (c : container) (keys : raw_index) (r : IndexerResolver) (size : Z).

Lemma parse_index_size_None (x : index_obj) size (spec : IndexSpec) :
  parse_index x size = OK spec -> (snd spec = None <-> exists i, x = IInt i).
Proof.
  destruct x as [i|s|a|l|[items|]]; simpl.
  - destruct (size <=? i); [discriminate|]. intros [= <-]. simpl. split; eauto.
  - destruct (_ || _).
    + intros [= <-]. simpl. split; [discriminate | intros [i [=]]].
    + destruct (range_getslice size s); simpl; [|discriminate].
      intros [= <-]. simpl. split; [discriminate | intros [i [=]]].
  - destruct (negb _); [discriminate|]. destruct (negb _); [discriminate|].
    intros [= <-]. simpl. split; [discriminate | intros [i [=]]].
  - intros [= <-]. simpl. split; [discriminate | intros [i [=]]].
  - intros [= <-]. simpl. split; [discriminate | intros [i [=]]].
  - discriminate.
Qed.

Lemma is_int_key_spec (x : index_obj) size (spec : IndexSpec) :
  parse_index x size = OK spec ->
  match snd spec with None => true | Some _ => false end = is_int_key (RObj x).
Proof.
  intros H. pose proof (parse_index_size_None x size spec H) as [H1 H2].
  destruct (snd spec) eqn:E.
  - destruct x; try reflexivity. discriminate H2. eauto.
  - destruct (H1 eq_refl) as [i ->]. reflexivity.
Qed.

(** X1: a resolver that was built is single-element exactly when every
    key the user wrote is a plain integer: the one key for a Vector, both
    entries of the 2-tuple for a Matrix or transposed Matrix.  A one-entry
    list or a slice selecting one index is not single-element. *)
Theorem single_element_iff_int_keys c keys r :
  IndexerResolver_init c keys = OK r ->
  (type_of c = TVector -> is_single_element r = is_int_key keys)
  /\ (is_matrix_like (type_of c) = true ->
      exists a b, keys = RTuple [a; b]
                  /\ is_single_element r = is_int_key a && is_int_key b).
Proof.
  unfold IndexerResolver_init, parse_indices. intros H.
  apply rbind_OK in H as (specs & H & [= <-]). unfold is_single_element. simpl indices.
  split; intros Ht; destruct c; try discriminate Ht; cbn in H.
  - destruct keys as [x|]; [|discriminate]. cbn in H.
    apply rbind_OK in H as (spec & Hs & [= <-]). cbn.
    rewrite (is_int_key_spec _ _ _ Hs). apply andb_true_r.
  - destruct keys as [|[|[x|] [|b [|]]]]; try discriminate. cbn in H.
    apply rbind_OK in H as (sx & Hx & H). apply rbind_OK in H as (out & H & [= <-]).
    destruct b as [y|]; [|discriminate H].
    apply rbind_OK in H as (sy & Hy & [= <-]).
    eexists _, _. split; [reflexivity|]. cbn.
    rewrite (is_int_key_spec _ _ _ Hx), (is_int_key_spec _ _ _ Hy).
    now rewrite andb_true_r.
  - destruct keys as [|[|[x|] [|b [|]]]]; try discriminate. cbn in H.
    apply rbind_OK in H as (sx & Hx & H). apply rbind_OK in H as (out & H & [= <-]).
    destruct b as [y|]; [|discriminate H].
    apply rbind_OK in H as (sy & Hy & [= <-]).
    eexists _, _. split; [reflexivity|]. cbn.
    rewrite (is_int_key_spec _ _ _ Hx), (is_int_key_spec _ _ _ Hy).
    now rewrite andb_true_r.
Qed.

Lemma single_element_iff_int_keys_witness :
  is_single_element (mkResolver (Vector "v" 5) [(_CArray [2], Some (_CScalar 1))])
  = is_int_key (RObj (IList [2]))
  /\ exists a b,
       RTuple [RObj (IInt 1); RObj (IInt 2)] = RTuple [a; b]
       /\ is_single_element
            (mkResolver (Matrix "A" 3 4) [(_CScalar 1, None); (_CScalar 2, None)])
          = is_int_key a && is_int_key b.
Proof.
  split.
  - exact (proj1 (single_element_iff_int_keys (Vector "v" 5) (RObj (IList [2]))
                    _ eq_refl) eq_refl).
  - exact (proj2 (single_element_iff_int_keys (Matrix "A" 3 4)
                    (RTuple [RObj (IInt 1); RObj (IInt 2)]) _ eq_refl) eq_refl).
Defined.

End SingleElement.

Section KeyShapes.

Implicit Types (c : container) (keys a b : raw_index) (R P : IndexerResolver).

Lemma matrix_like_shape c :
  is_matrix_like (type_of c) = true -> exists nr nc, shape c = [nr; nc].
Proof. destruct c; try discriminate; simpl; eauto. Qed.

Lemma resolver_init_pair c a b nr nc :
  is_matrix_like (type_of c) = true -> shape c = [nr; nc] ->
  IndexerResolver_init c (RTuple [a; b]) =
    match a with
    | RTuple _ => Err (TypeError (IndexInPositionTuple 0))
    | RObj x =>
        match parse_index x nr with
        | Err e => Err e
        | OK sa =>
            match b with
            | RTuple _ => Err (TypeError (IndexInPositionTuple 1))
            | RObj y =>
                match parse_index y nc with
                | Err e => Err e
                | OK sb => OK (mkResolver c [sa; sb])
                end
            end
        end
    end.
Proof.
  intros Hc Hs. unfold IndexerResolver_init, parse_indices. rewrite Hs. cbn.
  destruct a as [x|]; [|reflexivity].
  destruct (parse_index x nr) as [sa|e]; [|reflexivity]. cbn.
  destruct b as [y|]; [|reflexivity].
  destruct (parse_index y nc) as [sb|e]; reflexivity.
Qed.

(** X2: the shape of the key is checked first and the per-dimension
    indices are then resolved from left to right, the first error winning.
    A tuple key on a Vector and a key that is not a 2-tuple on a Matrix or
    transposed Matrix raise TypeError; in a 2-tuple a nested tuple in the
    row position, or an error of the row index, is reported whatever the
    column index is, and the column index is only looked at once the row
    index has been resolved. *)
Theorem keys_resolved_left_to_right :
  (forall name size l,
      IndexerResolver_init (Vector name size) (RTuple l)
      = Err (TypeError (IndexCannotBeTuple "Vector")))
  /\ (forall c keys,
        is_matrix_like (type_of c) = true ->
        (forall a b, keys <> RTuple [a; b]) ->
        IndexerResolver_init c keys
        = Err (TypeError (IndexMustBe2Tuple (type_name (type_of c)))))
  /\ (forall c l b,
        is_matrix_like (type_of c) = true ->
        IndexerResolver_init c (RTuple [RTuple l; b])
        = Err (TypeError (IndexInPositionTuple 0)))
  /\ (forall c x b nr nc e,
        is_matrix_like (type_of c) = true -> shape c = [nr; nc] ->
        parse_index x nr = Err e ->
        IndexerResolver_init c (RTuple [RObj x; b]) = Err e)
  /\ (forall c x l nr nc sa,
        is_matrix_like (type_of c) = true -> shape c = [nr; nc] ->
        parse_index x nr = OK sa ->
        IndexerResolver_init c (RTuple [RObj x; RTuple l])
        = Err (TypeError (IndexInPositionTuple 1)))
  /\ (forall c x y nr nc sa,
        is_matrix_like (type_of c) = true -> shape c = [nr; nc] ->
        parse_index x nr = OK sa ->
        IndexerResolver_init c (RTuple [RObj x; RObj y])
        = match parse_index y nc with
          | OK sb => OK (mkResolver c [sa; sb])
          | Err e => Err e
          end).
Proof.
  split; [reflexivity|]. split; [|split; [|split; [|split]]].
  - intros c keys Hc Hk. unfold IndexerResolver_init, parse_indices.
    destruct c; try discriminate Hc; cbn;
      (destruct keys as [|[|a [|b [|]]]]; try reflexivity; now destruct (Hk a b)).
  - intros c l b Hc. destruct (matrix_like_shape c Hc) as (nr & nc & Hs).
    now rewrite (resolver_init_pair c _ _ nr nc Hc Hs).
  - intros c x b nr nc e Hc Hs Hx.
    now rewrite (resolver_init_pair c _ _ nr nc Hc Hs), Hx.
  - intros c x l nr nc sa Hc Hs Hx.
    now rewrite (resolver_init_pair c _ _ nr nc Hc Hs), Hx.
  - intros c x y nr nc sa Hc Hs Hx.
    rewrite (resolver_init_pair c _ _ nr nc Hc Hs), Hx.
    now destruct (parse_index y nc).
Qed.

Lemma keys_resolved_left_to_right_witness :
  let A := Matrix "A" 3 4 in
  IndexerResolver_init A (RObj (IInt 1)) = Err (TypeError (IndexMustBe2Tuple "Matrix"))
  /\ IndexerResolver_init A (RTuple [RTuple []; RObj (IInt 9)])
     = Err (TypeError (IndexInPositionTuple 0))
  /\ IndexerResolver_init A (RTuple [RObj (IInt 5); RTuple []])
     = Err (IndexError (IndexOutOfRange 5 3))
  /\ IndexerResolver_init A (RTuple [RObj (IInt 1); RTuple []])
     = Err (TypeError (IndexInPositionTuple 1))
  /\ IndexerResolver_init A (RTuple [RObj (IInt 1); RObj (IInt 4)])
     = Err (IndexError (IndexOutOfRange 4 4)).
Proof.
  intros A.
  destruct keys_resolved_left_to_right as (_ & H2 & H3 & H4 & H5 & H6).
  split; [|split; [|split; [|split]]].
  - apply (H2 A (RObj (IInt 1)) eq_refl). discriminate.
  - exact (H3 A [] (RObj (IInt 9)) eq_refl).
  - exact (H4 A (IInt 5) (RTuple []) 3 4 _ eq_refl eq_refl eq_refl).
  - exact (H5 A (IInt 1) [] 3 4 _ eq_refl eq_refl eq_refl).
  - exact (H6 A (IInt 1) (IInt 4) 3 4 _ eq_refl eq_refl eq_refl).
Defined.

(** X3: projecting the resolver of a Matrix or transposed Matrix onto one
    dimension gives exactly the specs that resolving that dimension's key
    alone on a Vector of that dimension's size gives (which is why a
    projection can index a one-dimensional mask); the projection keeps the
    parent as its object, there is no third dimension to project on, and
    the resolver is single-element exactly when both projections are. *)
Theorem projection_resolves_as_vector c a b R nr nc vname :
  is_matrix_like (type_of c) = true -> shape c = [nr; nc] ->
  IndexerResolver_init c (RTuple [a; b]) = OK R ->
  exists P0 P1,
    get_index R 0 = OK P0 /\ get_index R 1 = OK P1
    /\ obj P0 = c /\ obj P1 = c
    /\ IndexerResolver_init (Vector vname nr) a
       = OK (mkResolver (Vector vname nr) (indices P0))
    /\ IndexerResolver_init (Vector vname nc) b
       = OK (mkResolver (Vector vname nc) (indices P1))
    /\ get_index R 2 = Err (IndexError TupleIndexOutOfRange)
    /\ is_single_element R = is_single_element P0 && is_single_element P1.
Proof.
  intros Hc Hs. rewrite (resolver_init_pair c a b nr nc Hc Hs).
  destruct a as [x|]; [|discriminate].
  destruct (parse_index x nr) as [sa|] eqn:Hx; [|discriminate].
  destruct b as [y|]; [|discriminate].
  destruct (parse_index y nc) as [sb|] eqn:Hy; [|discriminate].
  intros [= <-]. eexists _, _. split; [reflexivity|]. split; [reflexivity|].
  unfold IndexerResolver_init, parse_indices. cbn. rewrite Hx, Hy. cbn.
  repeat split. unfold is_single_element. cbn. now rewrite !andb_true_r.
Qed.

Lemma projection_resolves_as_vector_witness :
  let A := TransposedMatrix "A.T" 3 4 in
  let R := mkResolver A [(_CScalar 1, None); (_CArray [0; 2], Some (_CScalar 2))] in
  exists P0 P1,
    get_index R 0 = OK P0 /\ get_index R 1 = OK P1
    /\ obj P0 = A /\ obj P1 = A
    /\ IndexerResolver_init (Vector "m" 3) (RObj (IInt 1))
       = OK (mkResolver (Vector "m" 3) (indices P0))
    /\ IndexerResolver_init (Vector "m" 4) (RObj (IList [0; 2]))
       = OK (mkResolver (Vector "m" 4) (indices P1))
    /\ get_index R 2 = Err (IndexError TupleIndexOutOfRange)
    /\ is_single_element R = is_single_element P0 && is_single_element P1.
Proof.
  intros A R.
  exact (projection_resolves_as_vector A (RObj (IInt 1)) (RObj (IList [0; 2])) R
           3 4 "m" eq_refl eq_refl eq_refl).
Defined.

End KeyShapes.

(** ** Further properties of slice indices *)

Section SliceExpansion.

Implicit Types (size a b lo hi st : Z) (s : slice).

Lemma range_items_step_one a b : a <= b -> range_items a b 1 = interval a b.
Proof.
  intros Hab. unfold range_items, interval, range_len. cbn [Z.ltb Z.compare].
  assert (Hn : (if a <? b then Z.to_nat ((b - a - 1) / 1 + 1) else 0%nat)
               = Z.to_nat (b - a)).
  { destruct (Z.ltb_spec a b); [rewrite Z.div_1_r; f_equal; lia|].
    replace (b - a) with 0 by lia. reflexivity. }
  rewrite Hn. apply map_ext. intros k. lia.
Qed.

Lemma length_interval a b : a <= b -> len_Z (interval a b) = b - a.
Proof.
  intros Hab. unfold len_Z, interval. rewrite length_map, length_seq. lia.
Qed.

(** X4: a slice with the default step (or step 1) whose bounds, after
    defaulting an omitted start to 0 and an omitted stop to the size, lie
    in order inside the dimension, and which is not one of the two
    spellings of the ALL marker, resolves to the explicit indices
    [start, ..., stop-1] paired with the count [stop - start]; the empty
    slice [a:a] gives the empty sequence with count 0. *)
Theorem slice_contiguous size s :
  step s = None \/ step s = Some 1 ->
  0 <= default 0 (start s) <= default size (stop s) ->
  default size (stop s) <= size ->
  is_all_slice s = false ->
  parse_index (ISlice s) size
  = OK (_CArray (interval (default 0 (start s)) (default size (stop s))),
        Some (_CScalar (default size (stop s) - default 0 (start s)))).
Proof.
  intros Hstep Hab Hb Hall.
  rewrite parse_index_slice_unfold, Hall. unfold range_getslice.
  assert (Hst : match step s with Some x => x | None => 1 end = 1)
    by (destruct Hstep as [-> | ->]; reflexivity).
  rewrite Hst. cbn [Z.eqb Z.ltb Z.compare].
  assert (Hlo : clamp_bound (start s) 0 0 size size = default 0 (start s)).
  { unfold clamp_bound. destruct (start s) as [x|]; simpl in *; [|reflexivity].
    destruct (Z.ltb_spec x 0); lia. }
  assert (Hhi : clamp_bound (stop s) size 0 size size = default size (stop s)).
  { unfold clamp_bound. destruct (stop s) as [x|]; simpl in *; [|reflexivity].
    destruct (Z.ltb_spec x 0); lia. }
  rewrite Hlo, Hhi. simpl rbind.
  rewrite range_items_step_one by lia. now rewrite length_interval by lia.
Qed.

Lemma slice_contiguous_witness :
  parse_index (ISlice (Slice (Some 1) (Some 4) None)) 5
  = OK (_CArray (interval 1 4), Some (_CScalar (4 - 1)))
  /\ parse_index (ISlice (Slice (Some 2) (Some 2) (Some 1))) 5
     = OK (_CArray (interval 2 2), Some (_CScalar (2 - 2)))
  /\ parse_index (ISlice (Slice None (Some 5) None)) 5
     = OK (_CArray (interval 0 5), Some (_CScalar (5 - 0))).
Proof.
  split; [|split].
  - apply (slice_contiguous 5 (Slice (Some 1) (Some 4) None));
      [now left | simpl; lia | simpl; lia | reflexivity].
  - apply (slice_contiguous 5 (Slice (Some 2) (Some 2) (Some 1)));
      [now right | simpl; lia | simpl; lia | reflexivity].
  - apply (slice_contiguous 5 (Slice None (Some 5) None));
      [now left | simpl; lia | simpl; lia | reflexivity].
Defined.

Lemma rev_map_seq {A} (f : nat -> A) (n : nat) :
  rev (map f (seq 0 n)) = map (fun k => f (n - 1 - k)%nat) (seq 0 n).
Proof.
  induction n as [|n IH]; [reflexivity|].
  assert (Hr : forall g : nat -> A,
             map g (seq 0 (S n)) = g 0%nat :: map (fun k => g (S k)) (seq 0 n)).
  { intros g. simpl. now rewrite <- seq_shift, map_map. }
  rewrite (Hr (fun k => f (S n - 1 - k)%nat)), seq_S, map_app, rev_app_distr.
  simpl rev. simpl app. rewrite IH.
  f_equal.
  - f_equal. lia.
  - apply map_ext. intros k. f_equal. lia.
Qed.

(** X5: the slice [::-1] resolves to the indices of the whole dimension in
    descending order, the reverse of [0, ..., size-1], paired with the
    size. *)
Theorem slice_reversed size :
  0 <= size ->
  parse_index (ISlice (Slice None None (Some (-1)))) size
  = OK (_CArray (rev (interval 0 size)), Some (_CScalar size)).
Proof.
  intros Hsize. rewrite parse_index_slice_unfold.
  change (is_all_slice (Slice None None (Some (-1)))) with false. cbv iota.
  unfold range_getslice. cbn -[range_items Z.sub].
  assert (Hitems : range_items (size - 1) (-1) (-1) = rev (interval 0 size)).
  { unfold interval. rewrite rev_map_seq. unfold range_items, range_len.
    cbn [Z.ltb Z.compare]. change (- (-1)) with 1.
    assert (Hn : (if -1 <? size - 1
                  then Z.to_nat ((size - 1 - -1 - 1) / 1 + 1) else 0%nat)
                 = Z.to_nat (size - 0)).
    { destruct (Z.ltb_spec (-1) (size - 1)); [rewrite Z.div_1_r; f_equal; lia|].
      replace (size - 0) with 0 by lia. reflexivity. }
    rewrite Hn. apply map_ext_in. intros k Hk. apply in_seq in Hk. lia. }
  rewrite Hitems. simpl rbind.
  unfold len_Z at 1. rewrite length_rev. fold (len_Z (interval 0 size)).
  rewrite length_interval by lia. now rewrite Z.sub_0_r.
Qed.

Lemma slice_reversed_witness :
  parse_index (ISlice (Slice None None (Some (-1)))) 4
  = OK (_CArray (rev (interval 0 4)), Some (_CScalar 4)).
Proof. apply (slice_reversed 4). lia. Defined.

End SliceExpansion.

Section SliceBounds.

Implicit Types (size a b lo hi st : Z) (s : slice).

Lemma clamp_bound_wrap x default lower upper size :
  lower <= 0 -> size - 1 <= upper -> - size <= x < 0 ->
  clamp_bound (Some x) default lower upper size
  = clamp_bound (Some (x + size)) default lower upper size.
Proof.
  intros Hl Hu Hx. unfold clamp_bound.
  destruct (Z.ltb_spec x 0); [|lia].
  destruct (Z.ltb_spec (x + size) 0); lia.
Qed.

Lemma range_getslice_wrap_start size s a :
  start s = Some a -> - size <= a < 0 ->
  range_getslice size s
  = range_getslice size (Slice (Some (a + size)) (stop s) (step s)).
Proof.
  intros Hs Ha. unfold range_getslice. simpl. rewrite Hs.
  destruct (_ =? 0); [reflexivity|].
  destruct (_ <? 0); now rewrite (clamp_bound_wrap a) by lia.
Qed.

Lemma range_getslice_wrap_stop size s b :
  stop s = Some b -> - size <= b < 0 ->
  range_getslice size s
  = range_getslice size (Slice (start s) (Some (b + size)) (step s)).
Proof.
  intros Hs Hb. unfold range_getslice. simpl. rewrite Hs.
  destruct (_ =? 0); [reflexivity|].
  destruct (_ <? 0); now rewrite (clamp_bound_wrap b) by lia.
Qed.

(** X6: a negative slice bound counts from the end of the dimension: a
    stop [b] with [-size <= b < 0] resolves exactly as the stop
    [b + size], and a start [a] with [-size < a < 0] exactly as the start
    [a + size]. *)
Theorem slice_negative_bounds_wrap size s :
  (forall b, stop s = Some b -> - size <= b < 0 ->
             parse_index (ISlice s) size
             = parse_index (ISlice (Slice (start s) (Some (b + size)) (step s))) size)
  /\ (forall a, start s = Some a -> - size < a < 0 ->
                parse_index (ISlice s) size
                = parse_index (ISlice (Slice (Some (a + size)) (stop s) (step s))) size).
Proof.
  split.
  - intros b Hs Hb. rewrite !parse_index_slice_unfold.
    rewrite (range_getslice_wrap_stop size s b Hs Hb).
    assert (H1 : is_all_slice s = false).
    { apply is_all_slice_false; intros ->; discriminate Hs. }
    assert (H2 : is_all_slice (Slice (start s) (Some (b + size)) (step s)) = false).
    { apply is_all_slice_false; discriminate. }
    now rewrite H1, H2.
  - intros a Hs Ha. rewrite !parse_index_slice_unfold.
    rewrite (range_getslice_wrap_start size s a Hs) by lia.
    assert (H1 : is_all_slice s = false).
    { apply is_all_slice_false; intros ->; [discriminate Hs|].
      injection Hs as <-. lia. }
    assert (H2 : is_all_slice (Slice (Some (a + size)) (stop s) (step s)) = false).
    { apply is_all_slice_false; [discriminate|]. intros [= H _ _]. lia. }
    now rewrite H1, H2.
Qed.

Lemma slice_negative_bounds_wrap_witness :
  parse_index (ISlice (Slice (Some 1) (Some (-1)) None)) 5
  = parse_index (ISlice (Slice (Some 1) (Some (-1 + 5)) None)) 5
  /\ parse_index (ISlice (Slice (Some (-2)) None None)) 5
     = parse_index (ISlice (Slice (Some (-2 + 5)) None None)) 5.
Proof.
  split.
  - apply (proj1 (slice_negative_bounds_wrap 5 (Slice (Some 1) (Some (-1)) None)) (-1));
      [reflexivity | lia].
  - apply (proj2 (slice_negative_bounds_wrap 5 (Slice (Some (-2)) None None)) (-2));
      [reflexivity | lia].
Defined.

Lemma range_len_le lo hi st bound :
  st <> 0 ->
  (0 < st -> 0 <= lo /\ hi <= bound) ->
  (st < 0 -> -1 <= hi /\ lo <= bound - 1) ->
  0 <= bound ->
  Z.of_nat (range_len lo hi st) <= bound.
Proof.
  intros Hst Hup Hdown Hb. unfold range_len.
  destruct (Z.ltb_spec 0 st) as [Hpos|Hneg].
  - destruct (Z.ltb_spec lo hi); [|simpl; lia].
    assert ((hi - lo - 1) / st <= hi - lo - 1)
      by (apply Z.div_le_upper_bound; nia).
    assert (0 <= (hi - lo - 1) / st) by (apply Z.div_pos; lia).
    specialize (Hup Hpos). lia.
  - destruct (Z.ltb_spec hi lo); [|simpl; lia].
    assert ((lo - hi - 1) / (- st) <= lo - hi - 1)
      by (apply Z.div_le_upper_bound; nia).
    assert (0 <= (lo - hi - 1) / (- st)) by (apply Z.div_pos; lia).
    assert (st < 0) by lia. specialize (Hdown H2). lia.
Qed.

Lemma range_items_NoDup lo hi st : st <> 0 -> NoDup (range_items lo hi st).
Proof.
  intros Hst. unfold range_items.
  assert (Hinj : Inj (=) (=) (fun k : nat => lo + Z.of_nat k * st))
    by (intros j k H; nia).
  apply (NoDup_fmap_2 (fun k : nat => lo + Z.of_nat k * st)), NoDup_seq.
Qed.

(** X7: whatever slice is given on a dimension of size [size], the count
    paired with the resolved index lies between 0 and [size]; an
    explicit sequence has no repeated index and its count is its
    length. *)
Theorem slice_count_within_size size s idx count :
  0 <= size ->
  parse_index (ISlice s) size = OK (idx, Some (_CScalar count)) ->
  0 <= count <= size
  /\ (forall items, idx = _CArray items -> NoDup items /\ count = len_Z items).
Proof.
  intros Hsize. rewrite parse_index_slice_unfold.
  destruct (is_all_slice s).
  - intros [= <- <-]. split; [lia | discriminate].
  - unfold range_getslice. fold (slice_step s).
    destruct (Z.eqb_spec (slice_step s) 0) as [|Hst]; [discriminate|].
    simpl rbind. intros [= <- <-]. split.
    + unfold len_Z. rewrite length_range_items. split; [lia|].
      apply range_len_le; try assumption.
      * intros Hpos. destruct (Z.ltb_spec (slice_step s) 0); [lia|].
        split; apply clamp_bound_range; lia.
      * intros Hneg. destruct (Z.ltb_spec (slice_step s) 0); [|lia].
        split; apply clamp_bound_range; lia.
    + intros items [= <-]. split; [now apply range_items_NoDup | reflexivity].
Qed.

Lemma slice_count_within_size_witness :
  0 <= 2 <= 5
  /\ (forall items, _CArray [4; 2] = _CArray items -> NoDup items /\ 2 = len_Z items).
Proof.
  apply (slice_count_within_size 5 (Slice (Some 4) (Some 0) (Some (-2))));
    [lia | reflexivity].
Defined.

End SliceBounds.

(** ** Explicit index sequences *)

Section ExplicitSequences.

Implicit Types (size i : Z) (name : string).

(** X8: only a plain integer is compared with the size of the dimension.
    Whatever the index wrappers do, an integer at or beyond the size raises
    IndexError before any wrapper is built, while the resolution of a
    list, of an array and of any other sequence does not depend on the
    size at all; an array is validated for its rank first and its dtype
    second, before any wrapper is built.  With wrappers for unsigned
    64-bit values, the one-entry list [[i]] with [size <= i < 2^64]
    resolves to an explicit sequence of count 1. *)
Theorem only_integers_are_bounds_checked (new_CScalar : Z -> result carg)
    (new_CArray : list Z -> result carg) size i :
  size <= i ->
  parse_index_wrapped new_CScalar new_CArray (IInt i) size
  = Err (IndexError (IndexOutOfRange i size))
  /\ (forall l size',
        parse_index_wrapped new_CScalar new_CArray (IList l) size
        = parse_index_wrapped new_CScalar new_CArray (IList l) size')
  /\ (forall a size',
        parse_index_wrapped new_CScalar new_CArray (IArray a) size
        = parse_index_wrapped new_CScalar new_CArray (IArray a) size')
  /\ (forall items size',
        parse_index_wrapped new_CScalar new_CArray (IOther items) size
        = parse_index_wrapped new_CScalar new_CArray (IOther items) size')
  /\ (forall shape integer data,
        length shape <> 1%nat ->
        parse_index_wrapped new_CScalar new_CArray
          (IArray (NdArray shape integer data)) size
        = Err (TypeError (InvalidNumberOfDimensions (length shape))))
  /\ (forall n data,
        parse_index_wrapped new_CScalar new_CArray (IArray (NdArray [n] false data)) size
        = Err (TypeError InvalidDtype))
  /\ (0 <= i < 2 ^ 64 ->
      parse_index_wrapped uint64_CScalar uint64_CArray (IList [i]) size
      = OK (_CArray [i], Some (_CScalar 1))).
Proof.
  intros Hi. split.
  { rewrite parse_index_wrapped_int. destruct (Z.leb_spec size i); [reflexivity | lia]. }
  do 3 (split; [reflexivity|]). split; [|split; [reflexivity|]].
  - intros shape integer data Hs. simpl.
    destruct (Nat.eqb_spec (length shape) 1); [contradiction | reflexivity].
  - intros Hr. simpl. unfold uint64_CArray, uint64_CScalar, in_uint64. simpl forallb.
    destruct (Z.leb_spec 0 i); [|lia]. destruct (Z.ltb_spec i (2 ^ 64)); [|lia].
    reflexivity.
Qed.

Lemma only_integers_are_bounds_checked_witness :
  parse_index_wrapped uint64_CScalar uint64_CArray (IInt 7) 5
  = Err (IndexError (IndexOutOfRange 7 5))
  /\ parse_index_wrapped uint64_CScalar uint64_CArray (IList [7]) 5
     = OK (_CArray [7], Some (_CScalar 1)).
Proof.
  assert (H : 5 <= 7) by lia.
  assert (H' : 0 <= 7 < 2 ^ 64) by lia.
  split.
  - exact (proj1 (only_integers_are_bounds_checked uint64_CScalar uint64_CArray 5 7 H)).
  - exact (proj2 (proj2 (proj2 (proj2 (proj2 (proj2
             (only_integers_are_bounds_checked uint64_CScalar uint64_CArray 5 7 H))))))
             H').
Defined.

End ExplicitSequences.

(** ** Deleting an element *)

Section Delete.

Implicit Types (eng : engine) (hist : list event) (c : container)
  (kw : gmap string kwval) (keys : raw_index) (r : IndexerResolver).

(** X9: [del C(params)[index]] never looks at the captured parameters: it
    behaves the same for any two sets of them.  When the index resolves to
    a single element it makes exactly one call, [_delete_element] on the
    resolved index; for an integer in [0, size) on a Vector (a value the
    scalar wrapper holds) that index is the integer itself. *)
Theorem delitem_ignores_parameters eng hist c kw keys :
  (forall kw',
      run eng hist (Updater___delitem__ (mkUpdater c kw) keys)
      = run eng hist (Updater___delitem__ (mkUpdater c kw') keys))
  /\ (forall r,
        _is_scalar c = false ->
        IndexerResolver_init c keys = OK r ->
        is_single_element r = true ->
        run eng hist (Updater___delitem__ (mkUpdater c kw) keys)
        = (hist ++ [Ev (_delete_element c r)],
           outcome_of (eng hist _ (_delete_element c r))))
  /\ (forall name size i,
        c = Vector name size -> keys = RObj (IInt i) ->
        0 <= i < size -> i < 2 ^ 64 ->
        run eng hist (Updater___delitem__ (mkUpdater c kw) keys)
        = (hist ++ [Ev (_delete_element c (mkResolver c [(_CScalar i, None)]))],
           outcome_of (eng hist _
                         (_delete_element c (mkResolver c [(_CScalar i, None)]))))).
Proof.
  split; [reflexivity|]. split.
  - intros r Hs Hr Hsingle.
    rewrite (dunder_delitem_resolved eng hist (mkUpdater c kw) keys r Hs Hr).
    now rewrite Hsingle.
  - intros name size i -> -> Hi _.
    rewrite (dunder_delitem_resolved eng hist _ _
               (mkResolver (Vector name size) [(_CScalar i, None)])).
    + reflexivity.
    + reflexivity.
    + unfold IndexerResolver_init, parse_indices. cbn.
      destruct (Z.leb_spec size i); [lia | reflexivity].
Qed.

Lemma delitem_ignores_parameters_witness :
  let v := Vector "v" 5 in
  let kw : gmap string kwval := {["replace" := KObj (PyObj "True")]} in
  let r := mkResolver v [(_CScalar 2, None)] in
  run example_engine [] (Updater___delitem__ (mkUpdater v kw) (RObj (IInt 2)))
  = ([Ev (_delete_element v r)], Returned tt).
Proof.
  intros v kw r.
  assert (H : 0 <= 2 < 5) by lia.
  assert (H' : 2 < 2 ^ 64) by lia.
  exact (proj2 (proj2 (delitem_ignores_parameters example_engine [] v kw (RObj (IInt 2))))
           "v" 5 2 eq_refl eq_refl H H').
Defined.

End Delete.

(** ** Reading a single element *)

Section ElementReadProperties.

Variable scalar_value : container -> result pyobj.
Variable py_eq : pyobj -> pyobj -> result pyobj.
Variable py_bool py_float py_int : pyobj -> result pyobj.

Implicit Types (eng : engine) (hist : list event) (self : AmbiguousAssignOrExtract).

Lemma run_value_single eng hist self (conv : pyobj -> result pyobj) :
  is_single_element (amb_resolved_indexes self) = true ->
  run eng hist (v ← Ambiguous_value scalar_value self; lift (conv v))
  = single_read eng hist self scalar_value conv.
Proof.
  intros Hs. unfold Ambiguous_value, single_read. rewrite Hs. cbn.
  destruct (eng hist container _) as [scalar|e]; [|reflexivity].
  destruct (scalar_value scalar) as [v|e]; cbn; [|reflexivity].
  now destruct (conv v).
Qed.

(** X10: [.value], [==], [bool()], [float()] and [int()] on the staging
    object are defined for a single-element index only.  On a
    multi-element index [.value] raises AttributeError and the four
    others raise TypeError, with no call into the engine; on a
    single-element index each makes exactly one call,
    [_extract_element(resolved_indexes, name="s_extract")], and works on
    the [value] of the Scalar it returns. *)
Theorem element_reads_need_single_element eng hist self other :
  (is_single_element (amb_resolved_indexes self) = false ->
   run eng hist (Ambiguous_value scalar_value self)
   = (hist, Raised (AttributeError (Text "Only Scalars have `.value` attribute")))
   /\ (exists msg, run eng hist (Ambiguous___eq__ scalar_value py_eq self other)
                   = (hist, Raised (TypeError msg)))
   /\ (exists msg, run eng hist (Ambiguous___bool__ scalar_value py_bool self)
                   = (hist, Raised (TypeError msg)))
   /\ (exists msg, run eng hist (Ambiguous___float__ scalar_value py_float self)
                   = (hist, Raised (TypeError msg)))
   /\ (exists msg, run eng hist (Ambiguous___int__ scalar_value py_int self)
                   = (hist, Raised (TypeError msg))))
  /\ (is_single_element (amb_resolved_indexes self) = true ->
      run eng hist (Ambiguous_value scalar_value self)
      = single_read eng hist self scalar_value OK
      /\ run eng hist (Ambiguous___eq__ scalar_value py_eq self other)
         = single_read eng hist self scalar_value (fun v => py_eq v other)
      /\ run eng hist (Ambiguous___bool__ scalar_value py_bool self)
         = single_read eng hist self scalar_value py_bool
      /\ run eng hist (Ambiguous___float__ scalar_value py_float self)
         = single_read eng hist self scalar_value py_float
      /\ run eng hist (Ambiguous___int__ scalar_value py_int self)
         = single_read eng hist self scalar_value py_int).
Proof.
  split; intros Hs.
  - unfold Ambiguous_value, Ambiguous___eq__, Ambiguous___bool__,
      Ambiguous___float__, Ambiguous___int__. rewrite Hs. cbn. eauto 10.
  - split; [|split; [|split; [|split]]].
    + rewrite <- (run_value_single eng hist self OK Hs).
      rewrite run_bind.
      destruct (run eng hist (Ambiguous_value scalar_value self)) as [h [v|e|e]];
        reflexivity.
    + unfold Ambiguous___eq__. rewrite Hs. cbn [negb].
      now apply (run_value_single eng hist self (fun v => py_eq v other)).
    + unfold Ambiguous___bool__. rewrite Hs. cbn [negb].
      now apply run_value_single.
    + unfold Ambiguous___float__. rewrite Hs. cbn [negb].
      now apply run_value_single.
    + unfold Ambiguous___int__. rewrite Hs. cbn [negb].
      now apply run_value_single.
Qed.

End ElementReadProperties.

Lemma element_reads_need_single_element_witness :
  let v := Vector "v" 5 in
  let value_of := fun _ : container => OK (PyObj "3") in
  let conv := fun _ : pyobj => OK (PyObj "3.0") in
  let same := fun _ _ : pyobj => OK (PyObj "True") in
  run example_engine []
    (Ambiguous_value value_of (mkAmbiguous v (mkResolver v [(_ALL_INDICES, Some (_CScalar 5))])))
  = ([], Raised (AttributeError (Text "Only Scalars have `.value` attribute")))
  /\ run example_engine []
       (Ambiguous___float__ value_of conv
          (mkAmbiguous v (mkResolver v [(_CScalar 2, None)])))
     = ([Ev (_extract_element v (mkResolver v [(_CScalar 2, None)]) None
                              (Some "s_extract"))],
        Returned (PyObj "3.0")).
Proof.
  intros v value_of conv same. split.
  - exact (proj1 (proj1 (element_reads_need_single_element value_of same conv conv conv
                           example_engine []
                           (mkAmbiguous v (mkResolver v [(_ALL_INDICES, Some (_CScalar 5))]))
                           (PyObj "0")) eq_refl)).
  - exact (proj1 (proj2 (proj2 (proj2 (proj2 (element_reads_need_single_element
             value_of same conv conv conv example_engine []
             (mkAmbiguous v (mkResolver v [(_CScalar 2, None)])) (PyObj "0")) eq_refl))))).
Defined.

(** ** Extraction without an input mask *)

Section PlainExtraction.

Implicit Types (eng : engine) (hist : list event) (self : AmbiguousAssignOrExtract)
  (dtype name : option string) (mask input_mask : option Mask).

(** X11: [new] on a single-element index refuses any mask with a TypeError
    and otherwise makes the one call [_extract_element] with the given
    dtype and name.  On a multi-element index without [input_mask] it
    builds the delayed extraction ([_extract_delayed]) and materialises it
    with the dtype, the mask and the name unchanged; with both [mask] and
    [input_mask] given it raises TypeError before anything is called, the
    mask validation included. *)
Theorem new_without_input_mask eng hist self dtype mask input_mask name :
  (is_single_element (amb_resolved_indexes self) = true ->
   (given mask || given input_mask = true ->
    run eng hist (Ambiguous_new self dtype mask input_mask name)
    = (hist, Raised (TypeError MaskNotAllowedSingleElement)))
   /\ (mask = None -> input_mask = None ->
       run eng hist (Ambiguous_new self dtype mask input_mask name)
       = (hist ++ [Ev (_extract_element (amb_parent self) (amb_resolved_indexes self)
                                        dtype name)],
          outcome_of (eng hist _ (_extract_element (amb_parent self)
                                    (amb_resolved_indexes self) dtype name)))))
  /\ (is_single_element (amb_resolved_indexes self) = false ->
      (input_mask = None ->
       run eng hist (Ambiguous_new self dtype mask input_mask name)
       = run eng hist (delayed ← Ambiguous__extract_delayed self;
                       call (expr_new delayed dtype mask name))
       /\ run eng hist (Ambiguous_new self dtype mask input_mask name)
          = match eng hist _ (_prep_for_extract (amb_parent self)
                                                (amb_resolved_indexes self)) with
            | OK delayed =>
                (hist ++ [Ev (_prep_for_extract (amb_parent self)
                                                (amb_resolved_indexes self));
                          Ev (expr_new delayed dtype mask name)],
                 outcome_of
                   (eng (hist ++ [Ev (_prep_for_extract (amb_parent self)
                                                        (amb_resolved_indexes self))])
                        _ (expr_new delayed dtype mask name)))
            | Err e =>
                (hist ++ [Ev (_prep_for_extract (amb_parent self)
                                                (amb_resolved_indexes self))],
                 Failed e)
            end)
      /\ (given mask = true -> given input_mask = true ->
          run eng hist (Ambiguous_new self dtype mask input_mask name)
          = (hist, Raised (TypeError MaskAndInputMaskBoth)))).
Proof.
  split; intros Hs; unfold Ambiguous_new; rewrite Hs.
  - split.
    + intros ->. reflexivity.
    + intros -> ->. cbn. destruct (eng hist container _); reflexivity.
  - split.
    + intros ->. split; [reflexivity|]. cbn.
      destruct (eng hist expression _) as [d|e]; [|reflexivity].
      cbn. rewrite <- app_assoc. cbn.
      destruct (eng _ container _); reflexivity.
    + intros Hm Hi. destruct input_mask as [im|]; [|discriminate Hi].
      now rewrite Hm.
Qed.

Lemma new_without_input_mask_witness :
  let v := Vector "v" 5 in
  let M := mkMask "ValueMask" (Vector "m" 5) in
  let r1 := mkResolver v [(_CScalar 2, None)] in
  let r2 := mkResolver v [(_ALL_INDICES, Some (_CScalar 5))] in
  run example_engine [] (Ambiguous_new (mkAmbiguous v r1) None (Some M) None None)
  = ([], Raised (TypeError MaskNotAllowedSingleElement))
  /\ run example_engine [] (Ambiguous_new (mkAmbiguous v r1) (Some "FP64") None None None)
     = ([Ev (_extract_element v r1 (Some "FP64") None)], Returned (Scalar "s_extract"))
  /\ run example_engine [] (Ambiguous_new (mkAmbiguous v r2) None (Some M) None (Some "w"))
     = ([Ev (_prep_for_extract v r2);
         Ev (expr_new (Expression "extract") None (Some M) (Some "w"))],
        Returned (Vector "w" 4))
  /\ run example_engine [] (Ambiguous_new (mkAmbiguous v r2) None (Some M) (Some M) None)
     = ([], Raised (TypeError MaskAndInputMaskBoth)).
Proof.
  intros v M r1 r2. split; [|split; [|split]].
  - exact (proj1 (proj1 (new_without_input_mask example_engine [] (mkAmbiguous v r1)
                           None (Some M) None None) eq_refl) eq_refl).
  - exact (proj2 (proj1 (new_without_input_mask example_engine [] (mkAmbiguous v r1)
                           (Some "FP64") None None None) eq_refl) eq_refl eq_refl).
  - exact (proj2 (proj1 (proj2 (new_without_input_mask example_engine []
                           (mkAmbiguous v r2) None (Some M) None (Some "w")) eq_refl)
                    eq_refl)).
  - exact (proj2 (proj2 (new_without_input_mask example_engine [] (mkAmbiguous v r2)
                           None (Some M) (Some M) None) eq_refl) eq_refl eq_refl).
Defined.

End PlainExtraction.

(** ** The translated mask *)

Section TranslatedMask.

Implicit Types (eng : engine) (hist h : list event) (self : AmbiguousAssignOrExtract)
  (M : Mask).

Lemma input_mask_to_mask_cases self M :
  (exists e, _input_mask_to_mask self M = Raise e)
  \/ (exists proj, _input_mask_to_mask self M = project_mask M proj).
Proof.
  unfold _input_mask_to_mask, project_mask, get_index.
  destruct (pytype_eqb _ _ && negb _).
  - destruct (indices (amb_resolved_indexes self))
      as [|[ri [rs|]] [|[ci [cs|]] [|]]]; eauto;
      destruct (get_ncols (amb_parent self)), (get_nrows (amb_parent self)),
        (get_size (mask M)); cbn; eauto;
      match goal with |- context [negb ?b] => destruct b end; cbn; eauto.
  - destruct (negb (bool_decide _)); [|eauto].
    destruct (pytype_eqb _ _); [|eauto].
    destruct (get_size (amb_parent self)), (get_size (mask M)); cbn; eauto.
Qed.

(** X12: the translation of an input mask raises its errors before any
    call into the engine, and when it returns, it has made exactly two
    calls, both on the mask's side: [_prep_for_extract] on the container
    the mask wraps, and the materialisation of that extraction under the
    name "mask_temp" with no dtype and no mask.  The mask it returns has
    the class of the input mask and wraps the container just
    materialised. *)
Theorem translated_mask_is_rewrapped eng hist self M h :
  (forall e, run eng hist (_input_mask_to_mask self M) = (h, Raised e) -> h = hist)
  /\ (forall derived,
        run eng hist (_input_mask_to_mask self M) = (h, Returned derived) ->
        mask_class derived = mask_class M
        /\ exists proj mask_expr,
             h = hist ++ [Ev (_prep_for_extract (mask M) proj);
                          Ev (expr_new mask_expr None None (Some "mask_temp"))]
             /\ eng hist _ (_prep_for_extract (mask M) proj) = OK mask_expr
             /\ eng (hist ++ [Ev (_prep_for_extract (mask M) proj)]) _
                    (expr_new mask_expr None None (Some "mask_temp"))
                = OK (mask derived)).
Proof.
  destruct (input_mask_to_mask_cases self M) as [[e0 ->]|[proj ->]].
  - split; [now intros e [= <- _] | discriminate].
  - rewrite run_project_mask. cbv zeta.
    destruct (eng hist expression _) as [me|e1] eqn:E1.
    + destruct (eng (hist ++ _) container _) as [mv|e2] eqn:E2.
      * split; [discriminate|]. intros derived [= <- <-]. split; [reflexivity|].
        exists proj, me. auto.
      * split; discriminate.
    + split; discriminate.
Qed.

Lemma translated_mask_is_rewrapped_witness :
  let A := Matrix "A" 3 4 in
  let r := mkResolver A [(_CScalar 1, None); (_ALL_INDICES, Some (_CScalar 4))] in
  let M := mkMask "StructuralMask" (Vector "m" 4) in
  mask_class (mkMask "StructuralMask" (Vector "mask_temp" 4)) = mask_class M
  /\ exists proj mask_expr,
       [Ev (_prep_for_extract (Vector "m" 4)
                              (mkResolver A [(_ALL_INDICES, Some (_CScalar 4))]));
        Ev (expr_new (Expression "extract") None None (Some "mask_temp"))]
       = [] ++ [Ev (_prep_for_extract (mask M) proj);
                Ev (expr_new mask_expr None None (Some "mask_temp"))]
       /\ example_engine [] _ (_prep_for_extract (mask M) proj) = OK mask_expr
       /\ example_engine ([] ++ [Ev (_prep_for_extract (mask M) proj)]) _
            (expr_new mask_expr None None (Some "mask_temp"))
          = OK (mask (mkMask "StructuralMask" (Vector "mask_temp" 4))).
Proof.
  intros A r M.
  exact (proj2 (translated_mask_is_rewrapped example_engine [] (mkAmbiguous A r) M _)
           _ eq_refl).
Defined.

End TranslatedMask.

(** ** Further properties of the infix dispatch *)

Section MatmulErrors.

Implicit Types (eng : engine) (hist tr : list event) (left right : operand)
  (within : string).

Ltac by_variants left right :=
  destruct left as [[]|], right as [[]|].

(** X13: in the multiply dispatch the local [method] is never read
    unbound: no UnboundLocalError comes out, whatever the operands.  An
    unrecognised pairing raises a TypeError that names "right" when the
    left operand is a Vector, Matrix or transposed Matrix, "left" when
    only the right operand is, and no argument when neither is; and when
    the probe of a recognised pairing fails, that failure is the outcome
    of the dispatch. *)
Theorem matmul_dispatch_errors eng hist left right within :
  (forall tr m, run eng hist (_matmul_infix_expr left right within)
                <> (tr, Raised (UnboundLocalError m)))
  /\ (spec_matmul_method (type_of_operand left) (type_of_operand right) = None ->
      exists msg,
        run eng hist (_matmul_infix_expr left right within)
        = (hist, Raised (TypeError msg))
        /\ named_argument (TypeError msg)
           = if is_container_type (type_of_operand left) then Some "right"
             else if is_container_type (type_of_operand right) then Some "left"
             else None)
  /\ (forall m e,
        spec_matmul_method (type_of_operand left) (type_of_operand right) = Some m ->
        eng hist _ (method_call left m right "any_pair[bool]") = Err e ->
        run eng hist (_matmul_infix_expr left right within)
        = (hist ++ [Ev (method_call left m right "any_pair[bool]")], Failed e)).
Proof.
  split; [|split].
  - intros tr m.
    destruct (spec_matmul_method (type_of_operand left) (type_of_operand right))
      as [m'|] eqn:E.
    + rewrite (matmul_recognised eng hist left right within m' E). cbv zeta.
      destruct (eng hist probe _) as [[]|]; discriminate.
    + destruct (matmul_unrecognised eng hist left right within E) as [msg ->].
      discriminate.
  - intros H.
    by_variants left right; cbn in H; try discriminate H; cbn; eauto.
  - intros m e Hm He.
    rewrite (matmul_recognised eng hist left right within m Hm). cbv zeta.
    now rewrite He.
Qed.

Lemma matmul_dispatch_errors_witness :
  let v := Cont (Vector "v" 3) in
  let A := Cont (Matrix "A" 4 4) in
  (exists msg,
     run example_engine [] (_matmul_infix_expr (Foreign "int") v "__rmatmul__")
     = ([], Raised (TypeError msg))
     /\ named_argument (TypeError msg) = Some "left")
  /\ run example_engine [] (_matmul_infix_expr v A "__matmul__")
     = ([Ev (method_call v "vxm" A "any_pair[bool]")],
        Failed (OtherError "DimensionMismatch" (Text "vxm"))).
Proof.
  intros v A. split.
  - exact (proj1 (proj2 (matmul_dispatch_errors example_engine [] (Foreign "int") v
                           "__rmatmul__")) eq_refl).
  - exact (proj2 (proj2 (matmul_dispatch_errors example_engine [] v A "__matmul__"))
             "vxm" _ eq_refl eq_refl).
Defined.

End MatmulErrors.

Section EwiseNodes.

Implicit Types (eng : engine) (hist : list event) (left right : operand)
  (within method : string).

(** X14: an element-wise node takes its shape from the left operand, not
    from the probe: for two Vectors the node's size is the left Vector's
    size, and for two Matrix-like operands its row and column counts are
    the left operand's, whatever shape the probe reports.  The node is
    the intersection node exactly when the method is "ewise_mult"; any
    other method gives the union node. *)
Theorem ewise_node_from_left_operand eng hist left right method within :
  (forall lname rname n n' size,
      left = Cont (Vector lname n) -> right = Cont (Vector rname n') ->
      eng hist _ (method_call left method right "any") = OK (VectorExpression size) ->
      run eng hist (_ewise_infix_expr left right method within)
      = (hist ++ [Ev (method_call left method right "any")],
         Returned (if String.eqb method "ewise_mult"
                   then VectorEwiseMultExpr left right n
                   else VectorEwiseAddExpr left right n)))
  /\ (forall c nr nc pr pc,
        left = Cont c -> is_matrix_like (type_of c) = true -> shape c = [nr; nc] ->
        is_matrix_like (type_of_operand right) = true ->
        eng hist _ (method_call left method right "any") = OK (MatrixExpression pr pc) ->
        run eng hist (_ewise_infix_expr left right method within)
        = (hist ++ [Ev (method_call left method right "any")],
           Returned (if String.eqb method "ewise_mult"
                     then MatrixEwiseMultExpr left right nr nc
                     else MatrixEwiseAddExpr left right nr nc))).
Proof.
  split.
  - intros lname rname n n' size -> -> Hp.
    rewrite ewise_compatible_run by reflexivity. cbv zeta. rewrite Hp.
    destruct (String.eqb method "ewise_mult"); reflexivity.
  - intros c nr nc pr pc -> Hc Hs Hr Hp.
    rewrite ewise_compatible_run
      by (unfold spec_ewise_compatible; cbn [type_of_operand];
          rewrite Hc, Hr; apply orb_true_r).
    cbv zeta. rewrite Hp.
    destruct c; try discriminate Hc; injection Hs as -> ->;
      destruct (String.eqb method "ewise_mult"); reflexivity.
Qed.

Lemma ewise_node_from_left_operand_witness :
  let A := Cont (Matrix "A" 3 4) in
  let B := Cont (TransposedMatrix "B.T" 3 4) in
  run example_engine [] (_ewise_infix_expr A B "ewise_add" "__or__")
  = ([Ev (method_call A "ewise_add" B "any")], Returned (MatrixEwiseAddExpr A B 3 4))
  /\ run example_engine []
       (_ewise_infix_expr (Cont (Vector "v" 3)) (Cont (Vector "w" 3)) "ewise_mult" "__and__")
     = ([Ev (method_call (Cont (Vector "v" 3)) "ewise_mult" (Cont (Vector "w" 3)) "any")],
        Returned (VectorEwiseMultExpr (Cont (Vector "v" 3)) (Cont (Vector "w" 3)) 3)).
Proof.
  intros A B. split.
  - exact (proj2 (ewise_node_from_left_operand example_engine [] A B "ewise_add" "__or__")
             (Matrix "A" 3 4) 3 4 3 4 eq_refl eq_refl eq_refl eq_refl eq_refl).
  - exact (proj1 (ewise_node_from_left_operand example_engine [] _ _ "ewise_mult" "__and__")
             "v" "w" 3 3 3 eq_refl eq_refl eq_refl).
Defined.

End EwiseNodes.

(** ** Masked and direct assignment *)

Section MaskedAssignment.

Implicit Types (eng : engine) (hist : list event) (c : container)
  (kw : gmap string kwval) (keys : raw_index) (r : IndexerResolver) (v : pyobj).

Lemma mask_given_not_empty kw M : kw !! "mask" = Some (KMask M) -> kw <> ∅.
Proof. intros H ->. now rewrite lookup_empty in H. Qed.

(** X15: the order of indexing and parameterising decides how the mask is
    read.  With a mask among the parameters and no [input_mask],
    [C(params)[index] << v] calls [_prep_for_assign] with the mask and
    [is_submask=False]; [C[index](params) << v], for whatever Updater the
    container's call returns that carries the mask and no [input_mask],
    calls [_prep_for_assign] with the mask and [is_submask=True].  In both
    orders [_assign_element] is never called, a single-element index
    included, and [_update] with all the parameters follows exactly when
    [_prep_for_assign] returned. *)
Theorem submask_only_for_parameterized_call eng hist c kw keys r v M :
  _is_scalar c = false ->
  IndexerResolver_init c keys = OK r ->
  kw !! "mask" = Some (KMask M) ->
  kw_get kw "input_mask" = KNone ->
  kw_get kw "mask" = KMask M
  /\ run eng hist (a ← lift (Updater___getitem__ (mkUpdater c kw) keys);
                   Assigner___lshift__ a v)
     = deferred_commit eng hist (mkUpdater c kw) r v false
  /\ (forall args kwargs u,
        eng hist _ (parent_call c args kwargs) = OK u ->
        upd_kwargs u !! "mask" = Some (KMask M) ->
        kw_get (upd_kwargs u) "input_mask" = KNone ->
        run eng hist (a ← Ambiguous___call__ (mkAmbiguous c r) args kwargs;
                      Assigner___lshift__ a v)
        = deferred_commit eng (hist ++ [Ev (parent_call c args kwargs)]) u r v true).
Proof.
  intros Hs Hr Hm Hi.
  assert (Hget : kw_get kw "mask" = KMask M) by (unfold kw_get; now rewrite Hm).
  assert (Hne : upd_kwargs (mkUpdater c kw) <> ∅) by (eapply mask_given_not_empty; eauto).
  split; [exact Hget|]. split.
  - unfold Updater___getitem__. simpl upd_parent. rewrite Hs, Hr. simpl rbind.
    rewrite (assigner_init_no_input_mask (mkUpdater c kw) r false Hi). cbn [lift mbind prog_bind pbind].
    apply setitem_deferred. now right.
  - intros args kwargs u Hu Hum Hui. rewrite run_bind.
    rewrite (run_ambiguous_call eng hist (mkAmbiguous c r) args kwargs _ Hu).
    rewrite (assigner_init_no_input_mask u _ _ Hui).
    assert (Hg : kw_get (upd_kwargs u) "mask" = KMask M)
      by (unfold kw_get; now rewrite Hum).
    rewrite Hg. cbn [is_not_None amb_resolved_indexes].
    apply setitem_deferred. right. eapply mask_given_not_empty; eauto.
Qed.

Lemma submask_only_for_parameterized_call_witness :
  let v := Vector "v" 5 in
  let M := mkMask "StructuralMask" (Vector "m" 5) in
  let kw : gmap string kwval := {["mask" := KMask M]} in
  let r := mkResolver v [(_CScalar 2, None)] in
  run example_engine []
    (a ← lift (Updater___getitem__ (mkUpdater v kw) (RObj (IInt 2)));
     Assigner___lshift__ a (PyObj "1"))
  = ([Ev (_prep_for_assign v r (PyObj "1") (KMask M) false);
      Ev (_update v (Expression "assign") kw)], Returned tt)
  /\ run example_engine []
       (a ← Ambiguous___call__ (mkAmbiguous v r) [] kw; Assigner___lshift__ a (PyObj "1"))
     = ([Ev (parent_call v [] kw);
         Ev (_prep_for_assign v r (PyObj "1") (KMask M) true);
         Ev (_update v (Expression "assign") kw)], Returned tt).
Proof.
  intros v M kw r.
  pose proof (submask_only_for_parameterized_call example_engine [] v kw (RObj (IInt 2))
                r (PyObj "1") M eq_refl eq_refl eq_refl eq_refl) as (_ & H1 & H2).
  split; [exact H1 | exact (H2 [] kw (mkUpdater v kw) eq_refl eq_refl eq_refl)].
Defined.

(** X16: on a container that is not a transposed view, [C[index] << v] and
    [C[index].update(v)] commit through an Updater with no parameters: a
    single-element index makes the one call [_assign_element], and any
    other index prepares the assignment with no mask and
    [is_submask=False] and applies it with no parameters. *)
Theorem direct_update_commits eng hist (self : AmbiguousAssignOrExtract) v :
  _is_transposed (amb_parent self) = false ->
  run eng hist (Ambiguous___lshift__ self v) = run eng hist (Ambiguous_update self v)
  /\ kw_get (upd_kwargs (mkUpdater (amb_parent self) ∅)) "mask" = KNone
  /\ (is_single_element (amb_resolved_indexes self) = true ->
      run eng hist (Ambiguous_update self v)
      = fast_commit eng hist (mkUpdater (amb_parent self) ∅)
                    (amb_resolved_indexes self) v)
  /\ (is_single_element (amb_resolved_indexes self) = false ->
      run eng hist (Ambiguous_update self v)
      = deferred_commit eng hist (mkUpdater (amb_parent self) ∅)
                        (amb_resolved_indexes self) v false).
Proof.
  intros Ht. split; [reflexivity|]. split; [reflexivity|].
  unfold Ambiguous_update. rewrite Ht. split; intros Hs.
  - now apply setitem_fast.
  - apply setitem_deferred. now left.
Qed.

Lemma direct_update_commits_witness :
  let A := Matrix "A" 3 4 in
  let r1 := mkResolver A [(_CScalar 1, None); (_CScalar 2, None)] in
  let r2 := mkResolver A [(_CScalar 1, None); (_ALL_INDICES, Some (_CScalar 4))] in
  run example_engine [] (Ambiguous_update (mkAmbiguous A r1) (PyObj "7"))
  = ([Ev (_assign_element A r1 (PyObj "7"))], Returned tt)
  /\ run example_engine [] (Ambiguous_update (mkAmbiguous A r2) (PyObj "7"))
     = ([Ev (_prep_for_assign A r2 (PyObj "7") KNone false);
         Ev (_update A (Expression "assign") ∅)], Returned tt).
Proof.
  intros A r1 r2. split.
  - exact (proj1 (proj2 (proj2 (direct_update_commits example_engine []
                                  (mkAmbiguous A r1) (PyObj "7") eq_refl))) eq_refl).
  - exact (proj2 (proj2 (proj2 (direct_update_commits example_engine []
                                  (mkAmbiguous A r2) (PyObj "7") eq_refl))) eq_refl).
Defined.

End MaskedAssignment.
